(** * Azure OpenAI cost estimator: model-key canonicalisation, pricing cache
      and cost formula

    A shallow embedding of [AzureOpenAICostEstimator.ts].

    - JavaScript strings are modelled as [string]: sequences of 8-bit code
      units, read as the Latin-1 range U+0000..U+00FF of UTF-16.
    - JavaScript numbers are modelled as IEEE 754 binary64 values
      ([spec_float] at precision 53, maximal exponent 1024).
    - [Date.now()] readings and the cache TTL are integer milliseconds ([Z]).
    - [async] methods are state transformers over a [World] holding the
      estimator's cache, the clock and the log of HTTP requests. *)

From Stdlib Require Import ZArith NArith String Ascii List Bool Lia.
From Stdlib Require Import SpecFloat.
From stdpp Require Import gmap strings.

Local Open Scope string_scope.

(** ** JavaScript strings *)

Module JsString.

Definition code (c : ascii) : N := N_of_ascii c.

Definition inRange (lo hi : N) (c : ascii) : bool :=
  ((lo <=? code c) && (code c <=? hi))%N.

Definition isUpperAZ (c : ascii) : bool := inRange 65 90 c.
Definition isLowerAZ (c : ascii) : bool := inRange 97 122 c.
Definition isDigit (c : ascii) : bool := inRange 48 57 c.

(** Latin-1 capitals U+00C0..U+00DE, without the multiplication sign U+00D7. *)
Definition isLatin1Upper (c : ascii) : bool :=
  inRange 192 222 c && negb (code c =? 215)%N.

(** [\w] of a non-unicode regular expression: [[A-Za-z0-9_]]. *)
Definition isWordChar (c : ascii) : bool :=
  isUpperAZ c || isLowerAZ c || isDigit c || (code c =? 95)%N.

(** The class [[- ]]. *)
Definition isSep (c : ascii) : bool :=
  (code c =? 45)%N || (code c =? 32)%N.

Definition isHyphen (c : ascii) : bool := (code c =? 45)%N.
Definition isDollar (c : ascii) : bool := (code c =? 36)%N.

(** Line terminators, which [.] does not match (U+2028 and U+2029 lie
    outside the modelled range). *)
Definition isLineTerminator (c : ascii) : bool :=
  (code c =? 10)%N || (code c =? 13)%N.

Definition lowerChar (c : ascii) : ascii :=
  if isUpperAZ c || isLatin1Upper c then ascii_of_N (code c + 32) else c.

(** [String.prototype.toLowerCase]. *)
Fixpoint toLowerCase (s : string) : string :=
  match s with
  | EmptyString => EmptyString
  | String c r => String (lowerChar c) (toLowerCase r)
  end.

(** [s.startsWith(p)], returning the rest of [s] after [p]. *)
Fixpoint stripPrefix (p s : string) : option string :=
  match p with
  | EmptyString => Some s
  | String a p' =>
      match s with
      | EmptyString => None
      | String b s' => if Ascii.eqb a b then stripPrefix p' s' else None
      end
  end.

Definition startsWith (s p : string) : bool :=
  match stripPrefix p s with Some _ => true | None => false end.

(** [String.prototype.includes]. *)
Fixpoint includes (s sub : string) : bool :=
  if startsWith s sub then true
  else match s with
       | EmptyString => false
       | String _ r => includes r sub
       end.

(** [s.replace(pat, by)] with a string pattern: the first occurrence only. *)
Fixpoint replaceFirst (pat by_ s : string) : string :=
  match stripPrefix pat s with
  | Some r => by_ ++ r
  | None =>
      match s with
      | EmptyString => EmptyString
      | String c r => String c (replaceFirst pat by_ r)
      end
  end.

(** A case-insensitive test [/lit/i.test(s)] for a literal [lit] given in
    lower case. *)
Definition testIgnoreCase (lit s : string) : bool :=
  includes (toLowerCase s) lit.

(** The first alternative of [(a1|a2|...)] that matches at the start of [s]. *)
Fixpoint firstAlt (alts : list string) (s : string) : option string :=
  match alts with
  | [] => None
  | a :: rest => if startsWith s a then Some a else firstAlt rest s
  end.

End JsString.

Import JsString.

(** ** Model-key canonicaliser *)

(** The longest prefix of decimal digits: a greedy [[0-9]*]. *)
Fixpoint takeDigits (s : string) : string :=
  match s with
  | EmptyString => EmptyString
  | String c r => if isDigit c then String c (takeDigits r) else EmptyString
  end.

(** The optional separator [[- ]?]: greedy, and nothing after it can make
    use of a separator given back. *)
Definition skipSep (s : string) : string :=
  match s with
  | String d r => if isSep d then r else s
  | EmptyString => s
  end.

(** [o[- ]?([0-9]+)(?:[- ]mini)?] with flag [i], attempted at the start of
    [s]; the result is capture group 1. *)
Definition oFamilyAt (s : string) : option string :=
  match s with
  | String c r =>
      if Ascii.eqb (lowerChar c) "o" then
        match takeDigits (skipSep r) with
        | EmptyString => None
        | v => Some v
        end
      else None
  | EmptyString => None
  end.

(** The leftmost match of [/\bo[- ]?([0-9]+)(?:[- ]mini)?/i]; [prevWord]
    tells whether the preceding character is a word character. *)
Fixpoint oFamilyScan (prevWord : bool) (s : string) : option string :=
  match s with
  | EmptyString => None
  | String c r =>
      match (if prevWord then None else oFamilyAt s) with
      | Some v => Some v
      | None => oFamilyScan (isWordChar c) r
      end
  end.

Definition oFamilyMatch (s : string) : option string := oFamilyScan false s.

Definition gptSuffixes : list string :=
  ["32k"; "16k"; "8k"; "1106"; "0125"; "o"].

(** [gpt[- ]?([34](?:\.5)?)(?:[ -]turbo)?(?:.*?)(32k|16k|8k|1106|0125|o)?]
    attempted at the start of [s]: capture groups 1 and 2.  The lazy [.*?]
    takes no character, since the optional group after it cannot fail. *)
Definition gptAt (s : string) : option (string * option string) :=
  match stripPrefix "gpt" s with
  | None => None
  | Some r =>
      match skipSep r with
      | String c r2 =>
          if Ascii.eqb c "3" || Ascii.eqb c "4" then
            let '(ver, r3) :=
              match stripPrefix ".5" r2 with
              | Some r3 => (String c ".5", r3)
              | None => (String c EmptyString, r2)
              end in
            let r4 :=
              match r3 with
              | String d r' =>
                  if isSep d then
                    match stripPrefix "turbo" r' with
                    | Some r5 => r5
                    | None => r3
                    end
                  else r3
              | EmptyString => r3
              end in
            Some (ver, firstAlt gptSuffixes r4)
          else None
      | EmptyString => None
      end
  end.

Fixpoint gptMatch (s : string) : option (string * option string) :=
  match gptAt s with
  | Some m => Some m
  | None =>
      match s with
      | EmptyString => None
      | String _ r => gptMatch r
      end
  end.

Definition embeddingFamilies : list string :=
  ["ada"; "babbage"; "curie"; "davinci"; "gecko"].

(** After [embedding], the greedy [.*] runs to the end of the line and gives
    characters back one at a time: the family found is the one starting at
    the last position of the line where some family name starts. *)
Fixpoint lastFamily (s : string) : option string :=
  match s with
  | EmptyString => None
  | String c r =>
      match (if isLineTerminator c then None else lastFamily r) with
      | Some f => Some f
      | None => firstAlt embeddingFamilies s
      end
  end.

(** The leftmost match of [/embedding.*(ada|babbage|curie|davinci|gecko)/]:
    capture group 1. *)
Fixpoint embedMatch (s : string) : option string :=
  match
    match stripPrefix "embedding" s with
    | Some r => lastFamily r
    | None => None
    end
  with
  | Some f => Some f
  | None =>
      match s with
      | EmptyString => None
      | String _ r => embedMatch r
      end
  end.

(** [extractModelKey(meterName, skuName)]; [None] is [null]. *)
Definition extractModelKey (meterName skuName : string) : option string :=
  let src := toLowerCase (meterName ++ " " ++ skuName) in
  match oFamilyMatch src with
  | Some version =>
      let isMini := includes src "mini" in
      Some ("o" ++ version ++ (if isMini then "-mini" else ""))
  | None =>
      if includes src "gpt-35" || includes src "gpt35" then Some "gpt-35-turbo"
      else
        match gptMatch src with
        | Some (g1, g2) =>
            let ver := replaceFirst "." "" g1 in
            let ctx := match g2 with Some c => "-" ++ c | None => "" end in
            Some ("gpt-" ++ ver ++ ctx)
        | None =>
            match embedMatch src with
            | Some fam => Some ("text-embedding-" ++ fam)
            | None => if includes src "dall-e" then Some "dall-e" else None
            end
        end
  end.

(** [.replace(/[^a-z0-9]/g, '-')]. *)
Fixpoint replaceNonAlnum (s : string) : string :=
  match s with
  | EmptyString => EmptyString
  | String c r =>
      String (if isLowerAZ c || isDigit c then c else "-"%char)
             (replaceNonAlnum r)
  end.

(** [.replace(/--+/g, '-')]: of every run of two or more hyphens only the
    last one is kept. *)
Fixpoint collapseHyphens (s : string) : string :=
  match s with
  | EmptyString => EmptyString
  | String c r =>
      if isHyphen c && startsWith r "-" then collapseHyphens r
      else String c (collapseHyphens r)
  end.

(** The alternative [-\$] of the last replacement, away from position 0:
    every occurrence of a hyphen followed by a dollar sign is removed. *)
Fixpoint removeHyphenDollar (s : string) : string :=
  match s with
  | EmptyString => EmptyString
  | String c r =>
      match r with
      | String d r' =>
          if isHyphen c && isDollar d then removeHyphenDollar r'
          else String c (removeHyphenDollar r)
      | EmptyString => String c EmptyString
      end
  end.

(** [.replace(/^-|-\$/g, '')]: the alternative [^-] can match at position 0
    only, and is tried first there. *)
Definition stripEdges (s : string) : string :=
  match s with
  | String c r => if isHyphen c then removeHyphenDollar r else removeHyphenDollar s
  | EmptyString => EmptyString
  end.

Definition fallbackKey (model : string) : string :=
  stripEdges (collapseHyphens (replaceNonAlnum (toLowerCase model))).

(** [canonicalModelId(model)]. *)
Definition canonicalModelId (model : string) : string :=
  let modelLower := toLowerCase model in
  match oFamilyMatch modelLower with
  | Some version =>
      let isMini := includes modelLower "mini" in
      "o" ++ version ++ (if isMini then "-mini" else "")
  | None =>
      if includes modelLower "gpt-3.5" || includes modelLower "gpt3.5"
      then "gpt-35-turbo"
      else fallbackKey model
  end.

(** ** JavaScript numbers *)

Module JsNumber.

Definition prec : Z := 53.
Definition emax : Z := 1024.

(** A [number] is a binary64 value. *)
Definition number : Type := spec_float.

Definition add (x y : number) : number := SFadd prec emax x y.
Definition mul (x y : number) : number := SFmul prec emax x y.
Definition div (x y : number) : number := SFdiv prec emax x y.

(** An integer literal. *)
Definition ofZ (z : Z) : number := binary_normalize prec emax z 0 false.

(** The decimal literal [n / 10^k], correctly rounded. *)
Definition decimal (n : Z) (k : Z) : number := div (ofZ n) (ofZ (10 ^ k)).

(** The string returned by [x.toFixed(6)], kept in structured form:
    [FixedDecimal neg n] is the sign followed by the digits of [n] with the
    point before the last six of them, [FixedToString x] is the string
    [ToString(x)] used from 1e21 on. *)
Inductive FixedString : Type :=
  | FixedNaN
  | FixedInfinity (neg : bool)
  | FixedToString (x : number)
  | FixedDecimal (neg : bool) (n : Z).

(** Whether the magnitude [m * 2^e] is at least 10^21. *)
Definition atLeast1e21 (m : positive) (e : Z) : bool :=
  match e with
  | Zneg k => (10 ^ 21 * 2 ^ Zpos k <=? Zpos m)%Z
  | _ => (10 ^ 21 <=? Zpos m * 2 ^ e)%Z
  end.

(** The integer [n] for which [n / 10^6 - m * 2^e] is as close to zero as
    possible, the larger one if there are two. *)
Definition fixedDigits (m : positive) (e : Z) : Z :=
  match e with
  | Zneg k => ((2 * Zpos m * 10 ^ 6 + 2 ^ Zpos k) / (2 * 2 ^ Zpos k))%Z
  | _ => (Zpos m * 2 ^ e * 10 ^ 6)%Z
  end.

(** [Number.prototype.toFixed] at 6 fraction digits. *)
Definition toFixed6 (x : number) : FixedString :=
  match x with
  | S754_nan => FixedNaN
  | S754_infinity s => FixedInfinity s
  | S754_zero _ => FixedDecimal false 0
  | S754_finite s m e =>
      if atLeast1e21 m e then FixedToString x
      else FixedDecimal s (fixedDigits m e)
  end.

(** Unary [+] on such a string: the nearest binary64 value. *)
Definition toNumber (s : FixedString) : number :=
  match s with
  | FixedNaN => S754_nan
  | FixedInfinity neg => S754_infinity neg
  | FixedToString x => x
  | FixedDecimal neg n =>
      match n with
      | Zpos p => div (S754_finite neg p 0) (ofZ (10 ^ 6))
      | _ => S754_zero neg
      end
  end.

(** [+(x).toFixed(6)]. *)
Definition round6 (x : number) : number := toNumber (toFixed6 x).

End JsNumber.

Import JsNumber.

(** ** Data model *)

(** [PriceMeters]: an absent field is [None]. *)
Record PriceMeters : Type := {
  inputUsd : option number;
  outputUsd : option number;
  imageUsd : option number
}.

(** The object literal [{}]. *)
Definition emptyMeters : PriceMeters :=
  {| inputUsd := None; outputUsd := None; imageUsd := None |}.

Record CachedRegionPricing : Type := {
  fetchedAt : Z;
  meters : gmap string PriceMeters
}.

Record CostInput : Type := {
  region : string;
  model : string;
  promptTokens : option number;
  completionTokens : option number;
  imageCount : option number
}.

Record EstimatorOptions : Type := {
  optCurrency : option string;
  optCacheTTL : option Z
}.

(** The read-only fields of an estimator instance. *)
Record Estimator : Type := {
  currency : string;
  cacheTTL : Z
}.

(** The constructor; the instance's [cache] starts as the empty map of the
    initial [World]. *)
Definition newEstimator (opts : EstimatorOptions) : Estimator :=
  {| currency := default "USD" (optCurrency opts);
     cacheTTL := default (24 * 60 * 60 * 1000)%Z (optCacheTTL opts) |}.

(** One item of the price list. *)
Record Item : Type := {
  meterName : option string;
  skuName : option string;
  unitPrice : option number
}.

Record AzurePriceApiResponse : Type := {
  Items : list Item;
  NextPageLink : option string
}.

(** The HTTP collaborator behind [axios.get]: what the [i]-th request of the
    process answers for a URL ([None]: the promise is rejected), and how
    many milliseconds pass while it is awaited. *)
Record Transport : Type := {
  respond : nat -> string -> option AzurePriceApiResponse;
  latency : nat -> Z
}.

(** The mutable state around a call: the instance's cache, the clock read by
    [Date.now()], and the URLs requested so far. *)
Record World : Type := {
  cache : gmap string CachedRegionPricing;
  now : Z;
  requests : list string
}.

Definition initialWorld (t : Z) : World :=
  {| cache := ∅; now := t; requests := [] |}.

(** Time passing between two calls. *)
Definition elapse (dt : Z) (w : World) : World :=
  {| cache := cache w; now := (now w + dt)%Z; requests := requests w |}.

Definition setCache (c : gmap string CachedRegionPricing) (w : World) : World :=
  {| cache := c; now := now w; requests := requests w |}.

Inductive Error : Type :=
  | PricingNotFound (message : string)
    (** [new Error(`Pricing for model ... not found in region ...`)] *)
  | UnsupportedMeterShape
    (** [new Error('Unable to determine cost - unsupported input combination.')] *)
  | Rejected
    (** the rejection of [axios.get], passed on unchanged *)
  | TypeError.
    (** a property read on [undefined] *)

(** How an [async] call ends; [Pending] is a paging loop that has not ended
    within the fuel given. *)
Inductive Outcome (A : Type) : Type :=
  | Return (a : A)
  | Throw (e : Error)
  | Pending.

Arguments Return {A} a.
Arguments Throw {A} e.
Arguments Pending {A}.

Definition M (A : Type) : Type := World -> Outcome A * World.

Definition ret {A : Type} (a : A) : M A := fun w => (Return a, w).

Definition throw {A : Type} (e : Error) : M A := fun w => (Throw e, w).

Definition bind {A B : Type} (m : M A) (k : A -> M B) : M B :=
  fun w =>
    match m w with
    | (Return a, w') => k a w'
    | (Throw e, w') => (Throw e, w')
    | (Pending, w') => (Pending, w')
    end.

Notation "'let*' x ':=' m 'in' k" := (bind m (fun x => k))
  (at level 10, x name, m at level 100, k at level 200).

(** [Date.now()]. *)
Definition dateNow : M Z := fun w => (Return (now w), w).

(** [this.cache.get(region)]. *)
Definition cacheGet (r : string) : M (option CachedRegionPricing) :=
  fun w => (Return (cache w !! r), w).

(** [this.cache.set(region, entry)]. *)
Definition cacheSet (r : string) (e : CachedRegionPricing) : M unit :=
  fun w => (Return tt, setCache (<[r := e]> (cache w)) w).

(** [await axios.get(url)]. *)
Definition axiosGet (net : Transport) (url : string) : M AzurePriceApiResponse :=
  fun w =>
    let i := length (requests w) in
    let w' := {| cache := cache w;
                 now := (now w + latency net i)%Z;
                 requests := (requests w ++ [url])%list |} in
    match respond net i url with
    | Some r => (Return r, w')
    | None => (Throw Rejected, w')
    end.

(** ** encodeURIComponent *)

Definition hexDigit (n : N) : ascii :=
  if (n <? 10)%N then ascii_of_N (48 + n) else ascii_of_N (55 + n).

Definition percentByte (b : N) : string :=
  String "%" (String (hexDigit (b / 16)) (String (hexDigit (b mod 16)) "")).

Definition isUnreserved (c : ascii) : bool :=
  isUpperAZ c || isLowerAZ c || isDigit c
  || existsb (Ascii.eqb c) ["-"; "_"; "."; "!"; "~"; "*"; "'"; "("; ")"]%char.

(** Code units from U+0080 on take two bytes in UTF-8. *)
Definition encodeChar (c : ascii) : string :=
  if isUnreserved c then String c ""
  else if (code c <? 128)%N then percentByte (code c)
  else percentByte (192 + code c / 64) ++ percentByte (128 + code c mod 64).

Fixpoint encodeURIComponent (s : string) : string :=
  match s with
  | EmptyString => EmptyString
  | String c r => encodeChar c ++ encodeURIComponent r
  end.

(** ** fetchPricing *)

(** The names a [{}] object inherits from [Object.prototype]: reading one of
    them from a [Record] yields an object even when no meter was stored. *)
Definition inheritedNames : list string :=
  ["constructor"; "__defineGetter__"; "__defineSetter__"; "hasOwnProperty";
   "__lookupGetter__"; "__lookupSetter__"; "isPrototypeOf";
   "propertyIsEnumerable"; "toString"; "valueOf"; "__proto__";
   "toLocaleString"].

Definition inherited (k : string) : bool :=
  existsb (String.eqb k) inheritedNames.

(** [meters[key]] as a read: an own property, or else an inherited one, which
    has none of the three price fields. *)
Definition recordGet (m : gmap string PriceMeters) (k : string)
  : option PriceMeters :=
  match m !! k with
  | Some v => Some v
  | None => if inherited k then Some emptyMeters else None
  end.

Definition setImageUsd (v : number) (p : PriceMeters) : PriceMeters :=
  {| inputUsd := inputUsd p; outputUsd := outputUsd p; imageUsd := Some v |}.

Definition setInputUsd (v : number) (p : PriceMeters) : PriceMeters :=
  {| inputUsd := Some v; outputUsd := outputUsd p; imageUsd := imageUsd p |}.

Definition setOutputUsd (v : number) (p : PriceMeters) : PriceMeters :=
  {| inputUsd := inputUsd p; outputUsd := Some v; imageUsd := imageUsd p |}.

(** The billing dimension of a meter name: the field assignment made by the
    [if]/[else if] chain of the loop body, the identity when no keyword is
    found. *)
Definition applyMeter (name : string) (pricePerUnit : number)
  : PriceMeters -> PriceMeters :=
  if testIgnoreCase "image" name then
    setImageUsd (div pricePerUnit (ofZ 100))
  else if testIgnoreCase "input" name || testIgnoreCase "prompt" name then
    setInputUsd pricePerUnit
  else if testIgnoreCase "output" name || testIgnoreCase "completion" name then
    setOutputUsd pricePerUnit
  else if testIgnoreCase "embedding" name then
    setInputUsd pricePerUnit
  else id.

(** One round of [for (const item of allItems)].  The keys made by
    [extractModelKey] are never inherited names (see
    [extractModelKey_not_inherited]), so the test [!meters[modelKey]] reads
    own properties only. *)
Definition addItem (acc : gmap string PriceMeters) (item : Item)
  : gmap string PriceMeters :=
  let name := default "" (meterName item) in
  let sku := default "" (skuName item) in
  let pricePerUnit := default (ofZ 0) (unitPrice item) in
  match extractModelKey name sku with
  | None => acc
  | Some modelKey =>
      if String.eqb modelKey "" then acc
      else
        let acc1 :=
          match acc !! modelKey with
          | None => <[modelKey := emptyMeters]> acc
          | Some _ => acc
          end in
        alter (applyMeter name pricePerUnit) modelKey acc1
  end.

(** The model -> meter map built from all items, in order. *)
Definition normalize (allItems : list Item) : gmap string PriceMeters :=
  fold_left addItem allItems ∅.

Definition endpoint : string := "https://prices.azure.com/api/retail/prices".

Definition priceFilter (est : Estimator) (r : string) : string :=
  encodeURIComponent
    ("serviceName eq 'Azure OpenAI Service' and armRegionName eq '" ++ r
     ++ "' and currencyCode eq '" ++ currency est ++ "'").

Definition firstPage (est : Estimator) (r : string) : string :=
  endpoint ++ "?$filter=" ++ priceFilter est r.

(** [while (next)]: a link that is [null], absent or the empty string ends
    the loop. *)
Definition nextLink (resp : AzurePriceApiResponse) : option string :=
  match NextPageLink resp with
  | Some l => if String.eqb l "" then None else Some l
  | None => None
  end.

Fixpoint fetchPages (net : Transport) (fuel : nat) (next : string)
  (allItems : list Item) : M (list Item) :=
  match fuel with
  | O => fun w => (Pending, w)
  | S fuel' =>
      let* data := axiosGet net next in
      let allItems' := (allItems ++ Items data)%list in
      match nextLink data with
      | Some next' => fetchPages net fuel' next' allItems'
      | None => ret allItems'
      end
  end.

Definition fetchPricing (est : Estimator) (net : Transport) (fuel : nat)
  (r : string) : M (gmap string PriceMeters) :=
  let* allItems := fetchPages net fuel (firstPage est r) [] in
  ret (normalize allItems).

(** ** ensurePricing and estimateCost *)

Definition ensurePricing (est : Estimator) (net : Transport) (fuel : nat)
  (r : string) : M unit :=
  let* cached := cacheGet r in
  let refresh : M unit :=
    let* m := fetchPricing est net fuel r in
    let* t' := dateNow in
    cacheSet r {| fetchedAt := t'; meters := m |} in
  match cached with
  | Some c =>
      let* t := dateNow in
      if (t - fetchedAt c <? cacheTTL est)%Z then ret tt else refresh
  | None => refresh
  end.

Definition dquote : string := String "034"%char EmptyString.

Definition notFoundMessage (modelName regionName : string) : string :=
  "Pricing for model " ++ dquote ++ modelName ++ dquote
  ++ " not found in region " ++ dquote ++ regionName ++ dquote ++ ".".

(** [v !== undefined]. *)
Definition isDefined {A : Type} (v : option A) : bool :=
  match v with Some _ => true | None => false end.

(** The three billing shapes, tried in the order of the source. *)
Definition billMeters (m : PriceMeters) (input : CostInput) : Outcome number :=
  if isDefined (inputUsd m) then
    let inTok := default (ofZ 0) (promptTokens input) in
    let outTok := default (ofZ 0) (completionTokens input) in
    let costIn := mul (div inTok (ofZ 1000)) (default (ofZ 0) (inputUsd m)) in
    let costOut := mul (div outTok (ofZ 1000)) (default (ofZ 0) (outputUsd m)) in
    Return (round6 (add costIn costOut))
  else if negb (isDefined (outputUsd m)) && negb (isDefined (imageUsd m)) then
    let inTok := default (ofZ 0) (promptTokens input) in
    Return (round6 (mul (div inTok (ofZ 1000)) (default (ofZ 0) (inputUsd m))))
  else
    match imageUsd m with
    | Some price =>
        let count := default (ofZ 1) (imageCount input) in
        Return (round6 (mul count price))
    | None => Throw UnsupportedMeterShape
    end.

Definition estimateCost (est : Estimator) (net : Transport) (fuel : nat)
  (input : CostInput) : M number :=
  let r := toLowerCase (region input) in
  let* _ := ensurePricing est net fuel r in
  let* entry := cacheGet r in
  match entry with
  | None => throw TypeError
  | Some pricing =>
      let modelId := canonicalModelId (model input) in
      match recordGet (meters pricing) modelId with
      | None => throw (PricingNotFound (notFoundMessage (model input) r))
      | Some m => fun w => (billMeters m input, w)
      end
  end.

(** ** The price list of the test suite *)

Definition item (name sku : string) (price : number) : Item :=
  {| meterName := Some name; skuName := Some sku; unitPrice := Some price |}.

Definition testItems : list Item :=
  [ item "GPT-4 Prompt Tokens" "GPT-4" (decimal 3 2);
    item "GPT-4 Completion Tokens" "GPT-4" (decimal 6 2);
    item "GPT-35-Turbo Prompt Tokens" "GPT-35-Turbo" (decimal 15 4);
    item "GPT-35-Turbo Completion Tokens" "GPT-35-Turbo" (decimal 2 3);
    item "Text embedding ada" "Text Embedding" (decimal 1 4);
    item "DALL-E Image" "DALL-E" (ofZ 20);
    item "O3 Prompt Tokens" "O3" (decimal 15 3);
    item "O3 Completion Tokens" "O3" (decimal 30 3);
    item "O3-Mini Prompt Tokens" "O3-Mini" (decimal 15 4);
    item "O3-Mini Completion Tokens" "O3-Mini" (decimal 20 4) ].

(** The mocked transport: every request is answered by the same single
    page, after [ms] milliseconds. *)
Definition mockNet (items : list Item) (ms : Z) : Transport :=
  {| respond := fun _ _ => Some {| Items := items; NextPageLink := None |};
     latency := fun _ => ms |}.

Definition defaultEstimator : Estimator :=
  newEstimator {| optCurrency := None; optCacheTTL := None |}.

Definition textInput (r m : string) (p c : Z) : CostInput :=
  {| region := r; model := m; promptTokens := Some (ofZ p);
     completionTokens := Some (ofZ c); imageCount := None |}.

Definition imageInput (r m : string) (n : Z) : CostInput :=
  {| region := r; model := m; promptTokens := None;
     completionTokens := None; imageCount := Some (ofZ n) |}.

(** The same input for another spelling of the region. *)
Definition withRegion (r : string) (input : CostInput) : CostInput :=
  {| region := r; model := model input; promptTokens := promptTokens input;
     completionTokens := completionTokens input; imageCount := imageCount input |}.

(** The world after one fetch of "eastus" at time 0, read at time [t]. *)
Definition warmWorld (t : Z) : World :=
  {| cache := {["eastus" := {| fetchedAt := 0; meters := normalize testItems |}]};
     now := t;
     requests := [firstPage defaultEstimator "eastus"] |}.

(** Truncation at six decimals, as a reading of the words "fixed-point
    truncation at that precision": the digits of [floor (m * 2^e * 10^6)]. *)
Definition truncatedDigits (m : positive) (e : Z) : Z :=
  match e with
  | Zneg k => (Zpos m * 10 ^ 6 / 2 ^ Zpos k)%Z
  | _ => (Zpos m * 2 ^ e * 10 ^ 6)%Z
  end.

Definition truncate6 (x : number) : number :=
  match x with
  | S754_finite s m e =>
      if atLeast1e21 m e then x
      else toNumber (FixedDecimal s (truncatedDigits m e))
  | S754_zero _ => S754_zero false
  | _ => x
  end.

(** A text meter of 0.0019 per 1000 tokens. *)
Definition smallPriceItems : list Item :=
  [ item "GPT-4 Prompt Tokens" "GPT-4" (decimal 19 4) ].

(** An image meter of 0.00001 per 100 images. *)
Definition cheapImageItems : list Item :=
  [ item "DALL-E Image" "DALL-E" (decimal 1 5) ].

(** A meter whose name has none of the billing keywords. *)
Definition unclassifiedItems : list Item :=
  [ item "GPT-4 Tokens" "GPT-4" (decimal 3 2) ].

(** A completion meter alone. *)
Definition outputOnlyItems : list Item :=
  [ item "GPT-4 Completion Tokens" "GPT-4" (decimal 6 2) ].

(** The world after the first fetch of "eastus" from [mockNet items 5],
    started at time 0. *)
Definition fetchedWorld (items : list Item) : World :=
  {| cache := {["eastus" := {| fetchedAt := 5; meters := normalize items |}]};
     now := 5;
     requests := [firstPage defaultEstimator "eastus"] |}.

(** No code unit of [s] is a dollar sign. *)
Fixpoint noDollar (s : string) : bool :=
  match s with
  | EmptyString => true
  | String c r => negb (isDollar c) && noDollar r
  end.

(** Every code unit of [s] satisfies [P]. *)
Fixpoint allChars (P : ascii -> bool) (s : string) : bool :=
  match s with
  | EmptyString => true
  | String c r => P c && allChars P r
  end.

(** The alphabet of the keys made from user input: [[a-z0-9-]]. *)
Definition isKeyChar (c : ascii) : bool :=
  isLowerAZ c || isDigit c || isHyphen c.

(** The versions the generic GPT rule can print after "gpt-". *)
Definition gptVersions : list string := ["3"; "4"; "35"; "45"].

(** The keys [extractModelKey] can return, rule by rule. *)
Inductive VendorKey : string -> Prop :=
  | VendorO (v : string) :
      v <> "" -> allChars isDigit v = true -> VendorKey ("o" ++ v)
  | VendorOMini (v : string) :
      v <> "" -> allChars isDigit v = true -> VendorKey ("o" ++ v ++ "-mini")
  | VendorGpt35Turbo : VendorKey "gpt-35-turbo"
  | VendorGpt (ver : string) :
      In ver gptVersions -> VendorKey ("gpt-" ++ ver)
  | VendorGptSuffix (ver suffix : string) :
      In ver gptVersions -> In suffix gptSuffixes ->
      VendorKey ("gpt-" ++ ver ++ "-" ++ suffix)
  | VendorEmbedding (family : string) :
      In family embeddingFamilies -> VendorKey ("text-embedding-" ++ family)
  | VendorDallE : VendorKey "dall-e".

(** The model key of a price-list item, as the loop body computes it. *)
Definition itemKey (it : Item) : option string :=
  extractModelKey (default "" (meterName it)) (default "" (skuName it)).

(** The price field a meter name stands for: the branch taken by the
    [if]/[else if] chain of the loop body. *)
Inductive Field : Type := ImageField | InputField | OutputField.

Definition meterField (name : string) : option Field :=
  if testIgnoreCase "image" name then Some ImageField
  else if testIgnoreCase "input" name || testIgnoreCase "prompt" name
  then Some InputField
  else if testIgnoreCase "output" name || testIgnoreCase "completion" name
  then Some OutputField
  else if testIgnoreCase "embedding" name then Some InputField
  else None.

Definition itemField (it : Item) : option Field :=
  meterField (default "" (meterName it)).

(** The pages a server holds behind a URL, as seen by the requests numbered
    from [i] on: each page but the last one links to the next. *)
Inductive PageChain (net : Transport) : nat -> string -> list AzurePriceApiResponse -> Prop :=
  | LastPage (i : nat) (url : string) (data : AzurePriceApiResponse) :
      respond net i url = Some data ->
      nextLink data = None ->
      PageChain net i url [data]
  | LinkedPage (i : nat) (url next : string) (data : AzurePriceApiResponse)
      (rest : list AzurePriceApiResponse) :
      respond net i url = Some data ->
      nextLink data = Some next ->
      PageChain net (S i) next rest ->
      PageChain net i url (data :: rest).

(** All items of a list of pages, in order. *)
Definition pageItems (pages : list AzurePriceApiResponse) : list Item :=
  concat (map Items pages).

(** The time the requests numbered [i], ..., [i + n - 1] take. *)
Fixpoint totalLatency (net : Transport) (i n : nat) : Z :=
  match n with
  | O => 0
  | S n' => (latency net i + totalLatency net (S i) n')%Z
  end.

(** A number that is not negative: NaN, or a value with the sign bit clear. *)
Definition notNegative (x : number) : bool :=
  match x with
  | S754_nan => true
  | S754_zero s | S754_infinity s | S754_finite s _ _ => negb s
  end.

(** Zero or a finite non-zero value. *)
Definition isFiniteNumber (x : number) : bool :=
  match x with
  | S754_zero _ | S754_finite _ _ _ => true
  | _ => false
  end.

Definition isZero (x : number) : bool :=
  match x with S754_zero _ => true | _ => false end.

(** Every key of the cache is a lower-case string. *)
Definition lowerCaseKeys (c : gmap string CachedRegionPricing) : Prop :=
  forall k : string, is_Some (c !! k) -> toLowerCase k = k.

(** A two-page server: the first page links to "page-2". *)
Definition twoPageNet (first second : list Item) : Transport :=
  {| respond := fun i _ =>
       match i with
       | O => Some {| Items := first; NextPageLink := Some "page-2" |}
       | _ => Some {| Items := second; NextPageLink := None |}
       end;
     latency := fun _ => 3%Z |}.

(** A server that rejects every request. *)
Definition downNet : Transport :=
  {| respond := fun _ _ => None; latency := fun _ => 7%Z |}.

(** An optional number that, when present, satisfies [P]. *)
Definition whenDefined (P : number -> bool) (v : option number) : bool :=
  match v with Some x => P x | None => true end.

(** * Properties *)

(** ** Strings *)

Lemma append_nil_l (s : string) : "" ++ s = s.
Proof. reflexivity. Qed.

Lemma append_cons (c : ascii) (a b : string) : String c a ++ b = String c (a ++ b).
Proof. reflexivity. Qed.

(** Pushes [++] under the constructors of a literal prefix. *)
Ltac push_append := rewrite ?append_cons, ?append_nil_l.

Lemma lowerChar_idem (c : ascii) : lowerChar (lowerChar c) = lowerChar c.
Proof. destruct c as [[] [] [] [] [] [] [] []]; reflexivity. Qed.

Lemma toLowerCase_idem (s : string) : toLowerCase (toLowerCase s) = toLowerCase s.
Proof.
  induction s as [|c r IH]; simpl; [reflexivity|].
  now rewrite lowerChar_idem, IH.
Qed.

Lemma toLowerCase_app (a b : string) :
  toLowerCase (a ++ b) = toLowerCase a ++ toLowerCase b.
Proof. induction a as [|c r IH]; simpl; [reflexivity|now rewrite IH]. Qed.

Lemma stripPrefix_app (p r : string) : stripPrefix p (p ++ r) = Some r.
Proof.
  induction p as [|c p IH]; simpl; [reflexivity|].
  now rewrite Ascii.eqb_refl.
Qed.

Lemma stripPrefix_Some (p s r : string) : stripPrefix p s = Some r -> s = p ++ r.
Proof.
  revert s; induction p as [|c p IH]; intros s H; simpl in *.
  - now inversion H.
  - destruct s as [|d s]; [discriminate|].
    destruct (Ascii.eqb c d) eqn:E; [|discriminate].
    apply Ascii.eqb_eq in E; subst d. now rewrite (IH s H).
Qed.

Lemma startsWith_app (p r : string) : startsWith (p ++ r) p = true.
Proof. unfold startsWith. now rewrite stripPrefix_app. Qed.

Lemma includes_here (s sub : string) : startsWith s sub = true -> includes s sub = true.
Proof. intros H. destruct s; simpl; now rewrite H. Qed.

Lemma includes_cons (c : ascii) (s sub : string) :
  includes s sub = true -> includes (String c s) sub = true.
Proof. intros H. simpl. rewrite H. now destruct (startsWith _ _). Qed.

Lemma includes_app (a sub b : string) : includes (a ++ sub ++ b) sub = true.
Proof.
  induction a as [|c a IH]; push_append.
  - apply includes_here, startsWith_app.
  - now apply includes_cons.
Qed.

(** An occurrence found by [includes] splits the string. *)
Lemma includes_split (s sub : string) :
  includes s sub = true -> exists a b, s = a ++ sub ++ b.
Proof.
  induction s as [|c s IH]; simpl; unfold startsWith.
  - destruct (stripPrefix sub "") eqn:E; [|discriminate].
    intros _. exists "", s. push_append. now apply stripPrefix_Some.
  - destruct (stripPrefix sub (String c s)) eqn:E.
    + intros _. exists "", s0. push_append. now apply stripPrefix_Some.
    + intros H. destruct (IH H) as (a & b & ->). now exists (String c a), b.
Qed.

(** [includes] is the substring relation. *)
Lemma includes_iff (s sub : string) :
  includes s sub = true <-> exists a b, s = a ++ sub ++ b.
Proof.
  split; [apply includes_split|].
  intros (a & b & ->). apply includes_app.
Qed.

(** ** Canonicalisation: the o-family rule *)


(** C2: on the user-input path the spellings "o3", "O3", "o-3", "o 3",
    "OpenAI-o3" and "openai.o3" all canonicalise to "o3", and "o3-mini",
    "o3mini", "o-3-mini" and "o 3 mini" all canonicalise to "o3-mini". *)
Theorem canonicalModelId_o3_spellings :
  canonicalModelId "o3" = "o3" /\
  canonicalModelId "O3" = "o3" /\
  canonicalModelId "o-3" = "o3" /\
  canonicalModelId "o 3" = "o3" /\
  canonicalModelId "OpenAI-o3" = "o3" /\
  canonicalModelId "openai.o3" = "o3" /\
  canonicalModelId "o3-mini" = "o3-mini" /\
  canonicalModelId "o3mini" = "o3-mini" /\
  canonicalModelId "o-3-mini" = "o3-mini" /\
  canonicalModelId "o 3 mini" = "o3-mini".
Proof. repeat split; vm_compute; reflexivity. Qed.

Lemma canonicalModelId_o_family (model v : string) :
  oFamilyMatch (toLowerCase model) = Some v ->
  canonicalModelId model
  = "o" ++ v ++ (if includes (toLowerCase model) "mini" then "-mini" else "").
Proof. intros H. unfold canonicalModelId. now rewrite H. Qed.

(** A string that starts with "o3" followed by a space has "3" as its
    o-family version, whatever comes after. *)
Lemma oFamilyMatch_o3_space (rest : string) :
  oFamilyMatch ("o3 " ++ rest) = Some "3".
Proof. reflexivity. Qed.

(** C9, the claim as stated fails: "foo3 minimal" contains both "o3" and
    "minimal", yet no "o" of it stands at a word boundary, and the key is
    the fallback one. *)
Lemma o3_minimal_without_boundary :
  includes "foo3 minimal" "o3" = true /\
  includes "foo3 minimal" "minimal" = true /\
  canonicalModelId "foo3 minimal" = "foo3-minimal" /\
  canonicalModelId "foo3 minimal" <> "o3-mini".
Proof. repeat split; try (vm_compute; reflexivity). intros H; vm_compute in H; discriminate H. Qed.

(** C9 (amended): on the user-input path, whenever the o-family pattern
    matches with version [v], the suffix "-mini" is attached as soon as
    "mini" occurs anywhere in the lower-cased input; so every string that
    starts with "o3" and a space and contains "minimal" anywhere after it,
    in any letter case, canonicalises to "o3-mini". *)
Theorem o_family_mini_anywhere :
  (forall model v : string,
     oFamilyMatch (toLowerCase model) = Some v ->
     includes (toLowerCase model) "mini" = true ->
     canonicalModelId model = "o" ++ v ++ "-mini") /\
  (forall a m b : string,
     toLowerCase m = "minimal" ->
     canonicalModelId ("o3 " ++ a ++ m ++ b) = "o3-mini").
Proof.
  split.
  - intros model v Hm Hi. now rewrite (canonicalModelId_o_family _ _ Hm), Hi.
  - intros a m b Hmin.
    assert (Hl : toLowerCase ("o3 " ++ a ++ m ++ b)
                 = "o3 " ++ toLowerCase a ++ "mini" ++ "mal" ++ toLowerCase b).
    { rewrite !toLowerCase_app, Hmin. reflexivity. }
    rewrite (canonicalModelId_o_family _ "3").
    + rewrite Hl.
      change ("o3 " ++ toLowerCase a ++ "mini" ++ "mal" ++ toLowerCase b)
        with (String "o" (String "3" (String " " (toLowerCase a ++ "mini" ++ "mal" ++ toLowerCase b)))).
      now rewrite !includes_cons by apply includes_app.
    + rewrite Hl. apply oFamilyMatch_o3_space.
Qed.

Lemma o_family_mini_anywhere_witness :
  canonicalModelId "o3 minimal" = "o" ++ "3" ++ "-mini" /\
  canonicalModelId ("o3 " ++ "is the " ++ "MINIMAL" ++ " choice") = "o3-mini".
Proof.
  split.
  - apply (proj1 o_family_mini_anywhere "o3 minimal" "3"); reflexivity.
  - apply (proj2 o_family_mini_anywhere "is the " "MINIMAL" " choice"). reflexivity.
Defined.

(** ** Canonicalisation: the GPT-3.5 and DALL-E rules *)

Lemma extractModelKey_o_family (meterName skuName v : string) :
  oFamilyMatch (toLowerCase (meterName ++ " " ++ skuName)) = Some v ->
  extractModelKey meterName skuName
  = Some ("o" ++ v ++
          (if includes (toLowerCase (meterName ++ " " ++ skuName)) "mini"
           then "-mini" else "")).
Proof. intros H. unfold extractModelKey. now rewrite H. Qed.







(** ** Canonicalisation: the fallback rule *)

(** User strings that none of the two special rules takes go through the
    fallback, which keeps digits and inner hyphens. *)
Lemma canonicalModelId_fallback_examples :
  canonicalModelId "gpt-4" = "gpt-4" /\
  canonicalModelId "GPT 4 32k" = "gpt-4-32k" /\
  canonicalModelId "text-embedding-ada-002" = "text-embedding-ada-002" /\
  canonicalModelId "dall-e-3" = "dall-e-3" /\
  canonicalModelId "--Llama_2" = "llama-2".
Proof. repeat split; vm_compute; reflexivity. Qed.

Lemma replaceNonAlnum_noDollar (s : string) : noDollar (replaceNonAlnum s) = true.
Proof.
  induction s as [|c s IH]; simpl; [reflexivity|].
  rewrite IH, andb_true_r.
  destruct (isLowerAZ c || isDigit c) eqn:E; [|reflexivity].
  destruct c as [[] [] [] [] [] [] [] []]; try reflexivity; discriminate E.
Qed.

Lemma collapseHyphens_noDollar (s : string) :
  noDollar s = true -> noDollar (collapseHyphens s) = true.
Proof.
  induction s as [|c s IH]; simpl; [reflexivity|].
  intros H. apply andb_true_iff in H as [Hc Hs].
  destruct (isHyphen c && startsWith s "-"); simpl; [now apply IH|].
  now rewrite Hc, IH.
Qed.

(** Without a dollar sign in the string, the alternative [-\$] finds
    nothing to remove. *)
Lemma removeHyphenDollar_noDollar (s : string) :
  noDollar s = true -> removeHyphenDollar s = s.
Proof.
  induction s as [|c s IH]; [reflexivity|].
  intros H. simpl in H. apply andb_true_iff in H as [Hc Hs].
  specialize (IH Hs). simpl. destruct s as [|d s']; [reflexivity|].
  simpl in Hs. apply andb_true_iff in Hs as [Hd _].
  apply negb_true_iff in Hd. rewrite Hd, andb_false_r. now rewrite IH.
Qed.

(** The last replacement of the fallback removes one leading hyphen and
    nothing else. *)
Lemma fallbackKey_strips_leading_only (model : string) :
  fallbackKey model
  = match collapseHyphens (replaceNonAlnum (toLowerCase model)) with
    | String c r => if isHyphen c then r else String c r
    | EmptyString => EmptyString
    end.
Proof.
  unfold fallbackKey, stripEdges.
  pose proof (collapseHyphens_noDollar _ (replaceNonAlnum_noDollar (toLowerCase model))) as H.
  destruct (collapseHyphens _) as [|c r]; [reflexivity|].
  destruct (isHyphen c).
  - simpl in H. apply andb_true_iff in H as [_ H].
    now apply removeHyphenDollar_noDollar.
  - now apply removeHyphenDollar_noDollar.
Qed.

(** C8: the user string "llama!" matches none of the earlier rules, and its
    fallback key keeps the hyphen that stands for the final "!". *)
Theorem fallback_keeps_trailing_hyphen :
  oFamilyMatch (toLowerCase "llama!") = None /\
  includes (toLowerCase "llama!") "gpt-3.5" = false /\
  includes (toLowerCase "llama!") "gpt3.5" = false /\
  canonicalModelId "llama!" = "llama-".
Proof. repeat split; vm_compute; reflexivity. Qed.

(** ** The pricing cache *)

(** The keys made by [extractModelKey] are own properties of the table. *)
Lemma extractModelKey_not_inherited (meterName skuName k : string) :
  extractModelKey meterName skuName = Some k -> inherited k = false.
Proof.
  unfold extractModelKey.
  set (src := toLowerCase (meterName ++ " " ++ skuName)).
  destruct (oFamilyMatch src) as [v|].
  { intros [= <-]. push_append. reflexivity. }
  destruct (includes src "gpt-35" || includes src "gpt35").
  { intros [= <-]. reflexivity. }
  destruct (gptMatch src) as [[g1 g2]|].
  { intros [= <-]. push_append. reflexivity. }
  destruct (embedMatch src) as [fam|].
  { intros [= <-]. push_append. reflexivity. }
  destruct (includes src "dall-e"); [|discriminate].
  intros [= <-]. reflexivity.
Qed.

Lemma fetchPages_cache (net : Transport) (fuel : nat) (next : string)
  (acc : list Item) (w : World) :
  cache (snd (fetchPages net fuel next acc w)) = cache w.
Proof.
  revert next acc w. induction fuel as [|fuel IH]; intros next acc w; [reflexivity|].
  simpl. unfold bind, axiosGet.
  destruct (respond net (length (requests w)) next) as [data|]; [|reflexivity].
  destruct (nextLink data) as [next'|]; [|reflexivity].
  now rewrite IH.
Qed.

(** The pages fetched do not depend on what the cache holds. *)
Lemma fetchPages_setCache (net : Transport) (fuel : nat) (next : string)
  (acc : list Item) (c : gmap string CachedRegionPricing) (w : World) :
  fetchPages net fuel next acc (setCache c w)
  = (fst (fetchPages net fuel next acc w),
     setCache c (snd (fetchPages net fuel next acc w))).
Proof.
  revert next acc w. induction fuel as [|fuel IH]; intros next acc w; [reflexivity|].
  simpl. unfold bind, axiosGet. simpl.
  destruct (respond net (length (requests w)) next) as [data|]; [|reflexivity].
  destruct (nextLink data) as [next'|]; [|reflexivity].
  apply (IH next' _ {| cache := cache w;
                       now := (now w + latency net (length (requests w)))%Z;
                       requests := (requests w ++ [next])%list |}).
Qed.

Lemma fetchPricing_cache (est : Estimator) (net : Transport) (fuel : nat)
  (r : string) (w : World) :
  cache (snd (fetchPricing est net fuel r w)) = cache w.
Proof.
  unfold fetchPricing, bind.
  pose proof (fetchPages_cache net fuel (firstPage est r) [] w) as H.
  now destruct (fetchPages net fuel (firstPage est r) [] w) as [[a|e|] w'].
Qed.

Lemma fetchPricing_setCache (est : Estimator) (net : Transport) (fuel : nat)
  (r : string) (c : gmap string CachedRegionPricing) (w : World) :
  fetchPricing est net fuel r (setCache c w)
  = (fst (fetchPricing est net fuel r w),
     setCache c (snd (fetchPricing est net fuel r w))).
Proof.
  unfold fetchPricing, bind. rewrite fetchPages_setCache.
  now destruct (fetchPages net fuel (firstPage est r) [] w) as [[a|e|] w'].
Qed.

(** [ensurePricing] on an entry younger than the TTL: nothing happens. *)
Lemma ensurePricing_fresh (est : Estimator) (net : Transport) (fuel : nat)
  (r : string) (w : World) (c : CachedRegionPricing) :
  cache w !! r = Some c ->
  (now w - fetchedAt c < cacheTTL est)%Z ->
  ensurePricing est net fuel r w = (Return tt, w).
Proof.
  intros Hc Hlt. unfold ensurePricing, bind, cacheGet, dateNow. rewrite Hc.
  apply Z.ltb_lt in Hlt. now rewrite Hlt.
Qed.

(** [ensurePricing] without an entry, or on one as old as the TTL: the
    table is fetched and the entry overwritten. *)
Lemma ensurePricing_refresh (est : Estimator) (net : Transport) (fuel : nat)
  (r : string) (w : World) :
  (cache w !! r = None \/
   exists c, cache w !! r = Some c /\ (cacheTTL est <= now w - fetchedAt c)%Z) ->
  ensurePricing est net fuel r w
  = match fetchPricing est net fuel r w with
    | (Return m, w1) =>
        (Return tt,
         setCache (<[r := {| fetchedAt := now w1; meters := m |}]> (cache w1)) w1)
    | (Throw e, w1) => (Throw e, w1)
    | (Pending, w1) => (Pending, w1)
    end.
Proof.
  intros H. unfold ensurePricing, bind, cacheGet, dateNow, cacheSet.
  destruct H as [-> | (c & -> & Hge)].
  - now destruct (fetchPricing est net fuel r w) as [[m|e|] w1].
  - apply Z.ltb_ge in Hge. rewrite Hge.
    now destruct (fetchPricing est net fuel r w) as [[m|e|] w1].
Qed.

(** After [ensurePricing] has returned, the region has an entry. *)
Lemma ensurePricing_entry (est : Estimator) (net : Transport) (fuel : nat)
  (r : string) (w w1 : World) :
  ensurePricing est net fuel r w = (Return tt, w1) -> is_Some (cache w1 !! r).
Proof.
  destruct (cache w !! r) as [c|] eqn:Hc.
  - destruct (Z.ltb_spec (now w - fetchedAt c) (cacheTTL est)) as [Hlt|Hge].
    + rewrite (ensurePricing_fresh est net fuel r w c Hc Hlt).
      intros [= <-]. now rewrite Hc.
    + rewrite ensurePricing_refresh by (right; eauto).
      destruct (fetchPricing est net fuel r w) as [[m|e|] w'] ; try discriminate.
      intros [= <-]. simpl. rewrite lookup_insert_eq. eauto.
  - rewrite ensurePricing_refresh by (now left).
    destruct (fetchPricing est net fuel r w) as [[m|e|] w'] ; try discriminate.
    intros [= <-]. simpl. rewrite lookup_insert_eq. eauto.
Qed.

(** [estimateCost] after its call of [ensurePricing]. *)
Lemma estimateCost_unfold (est : Estimator) (net : Transport) (fuel : nat)
  (input : CostInput) (w : World) :
  estimateCost est net fuel input w
  = match ensurePricing est net fuel (toLowerCase (region input)) w with
    | (Return _, w1) =>
        match cache w1 !! toLowerCase (region input) with
        | None => (Throw TypeError, w1)
        | Some pricing =>
            match recordGet (meters pricing) (canonicalModelId (model input)) with
            | None =>
                (Throw (PricingNotFound
                          (notFoundMessage (model input)
                                           (toLowerCase (region input)))), w1)
            | Some m => (billMeters m input, w1)
            end
        end
    | (Throw e, w1) => (Throw e, w1)
    | (Pending, w1) => (Pending, w1)
    end.
Proof.
  unfold estimateCost, bind, cacheGet, throw.
  destruct (ensurePricing _ _ _ _ _) as [[u|e|] w1]; try reflexivity.
  destruct (cache w1 !! _) as [pricing|]; [|reflexivity].
  now destruct (recordGet _ _).
Qed.

Lemma estimateCost_bills (est : Estimator) (net : Transport) (fuel : nat)
  (input : CostInput) (w w1 : World) (pricing : CachedRegionPricing)
  (m : PriceMeters) :
  ensurePricing est net fuel (toLowerCase (region input)) w = (Return tt, w1) ->
  cache w1 !! toLowerCase (region input) = Some pricing ->
  recordGet (meters pricing) (canonicalModelId (model input)) = Some m ->
  estimateCost est net fuel input w = (billMeters m input, w1).
Proof. intros He Hc Hm. now rewrite estimateCost_unfold, He, Hc, Hm. Qed.

Lemma fetchPages_requests (net : Transport) (fuel : nat) (next : string)
  (acc : list Item) (w : World) :
  length (requests w) <= length (requests (snd (fetchPages net fuel next acc w))) /\
  (forall a, fst (fetchPages net fuel next acc w) = Return a ->
             length (requests w) < length (requests (snd (fetchPages net fuel next acc w)))).
Proof.
  revert next acc w. induction fuel as [|fuel IH]; intros next acc w.
  - simpl. split; [lia|discriminate].
  - simpl. unfold bind, axiosGet.
    destruct (respond net (length (requests w)) next) as [data|].
    + destruct (nextLink data) as [next'|].
      * match goal with |- context [fetchPages net fuel next' ?acc' ?w'] =>
          destruct (IH next' acc' w') as [Hle Hlt]; simpl in Hle, Hlt;
          rewrite length_app in Hle; simpl in Hle
        end.
        split; [lia|]. intros a Ha. specialize (Hlt a Ha).
        rewrite length_app in Hlt. simpl in Hlt. lia.
      * simpl. rewrite length_app. simpl. split; [lia|intros; lia].
    + simpl. rewrite length_app. simpl. split; [lia|discriminate].
Qed.

(** Fuel only bounds the number of pages: a fetch that has returned
    returns the same with more of it. *)
Lemma fetchPages_more_fuel (net : Transport) (fuel extra : nat) (next : string)
  (acc a : list Item) (w w' : World) :
  fetchPages net fuel next acc w = (Return a, w') ->
  fetchPages net (fuel + extra) next acc w = (Return a, w').
Proof.
  revert next acc w. induction fuel as [|fuel IH]; intros next acc w; [discriminate|].
  simpl. unfold bind, axiosGet.
  destruct (respond net (length (requests w)) next) as [data|]; [|discriminate].
  destruct (nextLink data) as [next'|]; [apply IH|trivial].
Qed.

(** A fetch that returns has sent at least one request. *)
Lemma fetchPricing_requests (est : Estimator) (net : Transport) (fuel : nat)
  (r : string) (w w1 : World) (m : gmap string PriceMeters) :
  fetchPricing est net fuel r w = (Return m, w1) ->
  length (requests w) < length (requests w1).
Proof.
  unfold fetchPricing, bind.
  destruct (fetchPages_requests net fuel (firstPage est r) [] w) as [_ H].
  destruct (fetchPages net fuel (firstPage est r) [] w) as [[a|e|] w'];
    try discriminate.
  intros [= _ <-]. now apply (H a).
Qed.

Lemma fetchPages_throws (net : Transport) (fuel : nat) (next : string)
  (acc : list Item) (w : World) (e : Error) :
  fst (fetchPages net fuel next acc w) = Throw e -> e = Rejected.
Proof.
  revert next acc w. induction fuel as [|fuel IH]; intros next acc w; [discriminate|].
  simpl. unfold bind, axiosGet.
  destruct (respond net (length (requests w)) next) as [data|].
  - destruct (nextLink data) as [next'|]; [apply IH|discriminate].
  - simpl. now intros [= <-].
Qed.

(** The only error of [ensurePricing] is the transport's. *)
Lemma ensurePricing_throws (est : Estimator) (net : Transport) (fuel : nat)
  (r : string) (w : World) (e : Error) :
  fst (ensurePricing est net fuel r w) = Throw e -> e = Rejected.
Proof.
  assert (Hf : forall e', fst (fetchPricing est net fuel r w) = Throw e' -> e' = Rejected).
  { intros e'. unfold fetchPricing, bind.
    pose proof (fetchPages_throws net fuel (firstPage est r) [] w e') as H.
    destruct (fetchPages net fuel (firstPage est r) [] w) as [[a|e0|] w'];
      simpl in *; try discriminate. intros [= <-]. now apply H. }
  destruct (cache w !! r) as [c|] eqn:Hc.
  - destruct (Z.ltb_spec (now w - fetchedAt c) (cacheTTL est)) as [Hlt|Hge].
    + now rewrite (ensurePricing_fresh est net fuel r w c Hc Hlt).
    + rewrite ensurePricing_refresh by (right; eauto).
      specialize (Hf e).
      destruct (fetchPricing est net fuel r w) as [[m|e0|] w']; simpl in *;
        try discriminate; intros [= <-]; now apply Hf.
  - rewrite ensurePricing_refresh by (now left).
    specialize (Hf e).
    destruct (fetchPricing est net fuel r w) as [[m|e0|] w']; simpl in *;
      try discriminate; intros [= <-]; now apply Hf.
Qed.

(** [ensurePricing] writes at most the entry of its region. *)
Lemma ensurePricing_writes (est : Estimator) (net : Transport) (fuel : nat)
  (r : string) (w : World) :
  cache (snd (ensurePricing est net fuel r w)) = cache w \/
  exists e, cache (snd (ensurePricing est net fuel r w)) = <[r := e]> (cache w).
Proof.
  pose proof (fetchPricing_cache est net fuel r w) as Hf.
  destruct (cache w !! r) as [c|] eqn:Hc.
  - destruct (Z.ltb_spec (now w - fetchedAt c) (cacheTTL est)) as [Hlt|Hge].
    + rewrite (ensurePricing_fresh est net fuel r w c Hc Hlt). now left.
    + rewrite ensurePricing_refresh by (right; eauto).
      destruct (fetchPricing est net fuel r w) as [[m|e0|] w']; simpl in *;
        rewrite ?Hf; eauto.
  - rewrite ensurePricing_refresh by (now left).
    destruct (fetchPricing est net fuel r w) as [[m|e0|] w']; simpl in *;
      rewrite ?Hf; eauto.
Qed.

Lemma estimateCost_world (est : Estimator) (net : Transport) (fuel : nat)
  (input : CostInput) (w : World) :
  snd (estimateCost est net fuel input w)
  = snd (ensurePricing est net fuel (toLowerCase (region input)) w).
Proof.
  rewrite estimateCost_unfold.
  destruct (ensurePricing _ _ _ _ _) as [[u|e|] w1]; try reflexivity. simpl.
  destruct (cache w1 !! _) as [pricing|]; [|reflexivity].
  now destruct (recordGet _ _).
Qed.

(** C4: in every region, an entry fetched at [fetchedAt] is used as it is,
    with no request sent and the world unchanged, by an estimate at a time
    [now] with [now - fetchedAt < cacheTTL]; when the entry is absent or
    [now - fetchedAt >= cacheTTL] and the fetch returns a table, the
    entry becomes exactly [{now after the fetch, that table}], at least
    one request having been sent, the other regions being left as they
    were, and the table fetched does not depend on what the cache held. *)
Theorem cache_entry_reused_or_replaced (est : Estimator) (net : Transport)
  (fuel : nat) (input : CostInput) (w : World) :
  (forall c : CachedRegionPricing,
     cache w !! toLowerCase (region input) = Some c ->
     (now w - fetchedAt c < cacheTTL est)%Z ->
     estimateCost est net fuel input w
     = (match recordGet (meters c) (canonicalModelId (model input)) with
        | Some m => billMeters m input
        | None => Throw (PricingNotFound
                           (notFoundMessage (model input)
                                            (toLowerCase (region input))))
        end, w)) /\
  (forall (m : gmap string PriceMeters) (w1 : World),
     (cache w !! toLowerCase (region input) = None \/
      exists c, cache w !! toLowerCase (region input) = Some c /\
                (cacheTTL est <= now w - fetchedAt c)%Z) ->
     fetchPricing est net fuel (toLowerCase (region input)) w = (Return m, w1) ->
     snd (estimateCost est net fuel input w)
     = {| cache := <[toLowerCase (region input) :=
                      {| fetchedAt := now w1; meters := m |}]> (cache w);
          now := now w1;
          requests := requests w1 |} /\
     length (requests w) < length (requests w1)) /\
  (forall c' : gmap string CachedRegionPricing,
     fst (fetchPricing est net fuel (toLowerCase (region input)) (setCache c' w))
     = fst (fetchPricing est net fuel (toLowerCase (region input)) w)).
Proof.
  split; [|split].
  - intros c Hc Hlt.
    rewrite estimateCost_unfold, (ensurePricing_fresh est net fuel _ w c Hc Hlt), Hc.
    now destruct (recordGet _ _).
  - intros m w1 Hstale Hfetch.
    rewrite estimateCost_world, ensurePricing_refresh, Hfetch by exact Hstale.
    pose proof (fetchPricing_cache est net fuel (toLowerCase (region input)) w) as Hc.
    rewrite Hfetch in Hc. simpl in Hc. simpl. unfold setCache. rewrite Hc.
    split; [reflexivity|]. exact (fetchPricing_requests _ _ _ _ _ _ _ Hfetch).
  - intros c'. now rewrite fetchPricing_setCache.
Qed.

Lemma cache_entry_reused_or_replaced_witness :
  estimateCost defaultEstimator (mockNet testItems 5) 1
    (textInput "eastus" "gpt-4" 500 200) (warmWorld 86399999)
  = (Return (decimal 27 3), warmWorld 86399999) /\
  (snd (estimateCost defaultEstimator (mockNet testItems 5) 1
          (textInput "eastus" "gpt-4" 500 200) (warmWorld 86400000))
   = {| cache := <["eastus" := {| fetchedAt := 86400005;
                                  meters := normalize testItems |}]>
                   (cache (warmWorld 86400000));
        now := 86400005;
        requests := [firstPage defaultEstimator "eastus";
                     firstPage defaultEstimator "eastus"] |} /\
   length (requests (warmWorld 86400000)) < 2).
Proof.
  split.
  - rewrite (proj1 (cache_entry_reused_or_replaced defaultEstimator
                      (mockNet testItems 5) 1
                      (textInput "eastus" "gpt-4" 500 200) (warmWorld 86399999))
                   {| fetchedAt := 0; meters := normalize testItems |}).
    + vm_compute. reflexivity.
    + vm_compute. reflexivity.
    + vm_compute. reflexivity.
  - apply (proj1 (proj2 (cache_entry_reused_or_replaced defaultEstimator
                           (mockNet testItems 5) 1
                           (textInput "eastus" "gpt-4" 500 200)
                           (warmWorld 86400000)))
                 (normalize testItems)
                 {| cache := cache (warmWorld 86400000);
                    now := 86400005;
                    requests := [firstPage defaultEstimator "eastus";
                                 firstPage defaultEstimator "eastus"] |}).
    + right. exists {| fetchedAt := 0; meters := normalize testItems |}.
      split; [vm_compute; reflexivity|vm_compute; discriminate].
    + reflexivity.
Defined.

(** ** Region letter case *)

(** C10: [estimateCost] lower-cases the region before every cache access:
    a call gives the same outcome and the same world as the call with the
    region lower-cased; it writes at most the cache entry of the lower-cased
    region; after a call that got its price table, a call for a region
    that differs in letter case only, made while the entry is younger than
    the TTL, sends no request and leaves the world as it is; and the
    message of PricingNotFound names the lower-cased region. *)
Theorem region_is_lowercased (est : Estimator) (net : Transport) (fuel : nat)
  (input : CostInput) (w : World) :
  estimateCost est net fuel input w
  = estimateCost est net fuel (withRegion (toLowerCase (region input)) input) w /\
  (cache (snd (estimateCost est net fuel input w)) = cache w \/
   exists e, cache (snd (estimateCost est net fuel input w))
             = <[toLowerCase (region input) := e]> (cache w)) /\
  (forall (input2 : CostInput) (dt : Z),
     toLowerCase (region input2) = toLowerCase (region input) ->
     fst (estimateCost est net fuel input w) <> Throw Rejected ->
     fst (estimateCost est net fuel input w) <> Pending ->
     (forall c, cache (snd (estimateCost est net fuel input w))
                !! toLowerCase (region input) = Some c ->
                (now (snd (estimateCost est net fuel input w)) + dt - fetchedAt c
                 < cacheTTL est)%Z) ->
     snd (estimateCost est net fuel input2
            (elapse dt (snd (estimateCost est net fuel input w))))
     = elapse dt (snd (estimateCost est net fuel input w))) /\
  (forall message : string,
     fst (estimateCost est net fuel input w) = Throw (PricingNotFound message) ->
     message = notFoundMessage (model input) (toLowerCase (region input))).
Proof.
  split; [|split; [|split]].
  - rewrite !estimateCost_unfold. simpl. rewrite toLowerCase_idem. reflexivity.
  - rewrite estimateCost_world. apply ensurePricing_writes.
  - intros input2 dt Hr Hrej Hpend Hfresh.
    rewrite !estimateCost_world. rewrite !estimateCost_world in Hfresh.
    rewrite estimateCost_unfold in Hrej, Hpend.
    destruct (ensurePricing est net fuel (toLowerCase (region input)) w)
      as [[[]|e|] w1] eqn:He; simpl in *.
    + destruct (ensurePricing_entry _ _ _ _ _ _ He) as [c Hc].
      rewrite Hr.
      now rewrite (ensurePricing_fresh est net fuel _ (elapse dt w1) c Hc (Hfresh c Hc)).
    + pose proof (ensurePricing_throws est net fuel (toLowerCase (region input)) w e)
        as Hth.
      rewrite He in Hth. rewrite (Hth eq_refl) in Hrej. now destruct Hrej.
    + now destruct Hpend.
  - intros message. rewrite estimateCost_unfold.
    pose proof (ensurePricing_throws est net fuel (toLowerCase (region input)) w) as Hth.
    destruct (ensurePricing _ _ _ _ _) as [[u|e|] w1]; simpl in *.
    + destruct (cache w1 !! _) as [pricing|]; [|discriminate].
      destruct (recordGet _ _) as [m|]; simpl.
      * unfold billMeters.
        destruct (isDefined (inputUsd m)); [discriminate|].
        destruct (negb _ && negb _); [discriminate|].
        destruct (imageUsd m); discriminate.
      * now intros [= <-].
    + intros [= ->]. now specialize (Hth _ eq_refl).
    + discriminate.
Qed.

Lemma region_is_lowercased_witness :
  snd (estimateCost defaultEstimator (mockNet testItems 5) 1
         (textInput "eastus" "gpt-4" 500 200)
         (elapse 1000 (snd (estimateCost defaultEstimator (mockNet testItems 5) 1
                              (textInput "EastUS" "o3" 1000 500) (initialWorld 0)))))
  = elapse 1000 (snd (estimateCost defaultEstimator (mockNet testItems 5) 1
                        (textInput "EastUS" "o3" 1000 500) (initialWorld 0))) /\
  "Pricing for model " ++ dquote ++ "non-existent-model" ++ dquote
  ++ " not found in region " ++ dquote ++ "eastus" ++ dquote ++ "."
  = notFoundMessage "non-existent-model" (toLowerCase "EastUS").
Proof.
  pose proof (region_is_lowercased defaultEstimator (mockNet testItems 5) 1
                (textInput "EastUS" "o3" 1000 500) (initialWorld 0))
    as (_ & _ & Hshare & _).
  pose proof (region_is_lowercased defaultEstimator (mockNet testItems 5) 1
                (textInput "EastUS" "non-existent-model" 100 0) (initialWorld 0))
    as (_ & _ & _ & Hmsg).
  split.
  - apply (Hshare (textInput "eastus" "gpt-4" 500 200) 1000%Z).
    + reflexivity.
    + vm_compute. discriminate.
    + vm_compute. discriminate.
    + intros c Hc. vm_compute in Hc. injection Hc as <-. vm_compute. reflexivity.
  - apply Hmsg. vm_compute. reflexivity.
Defined.

(** ** The cost formula *)

Lemma extractModelKey_nonempty (meterName skuName k : string) :
  extractModelKey meterName skuName = Some k -> String.eqb k "" = false.
Proof.
  unfold extractModelKey.
  set (src := toLowerCase (meterName ++ " " ++ skuName)).
  destruct (oFamilyMatch src) as [v|].
  { intros [= <-]. push_append. reflexivity. }
  destruct (includes src "gpt-35" || includes src "gpt35").
  { intros [= <-]. reflexivity. }
  destruct (gptMatch src) as [[g1 g2]|].
  { intros [= <-]. push_append. reflexivity. }
  destruct (embedMatch src) as [fam|].
  { intros [= <-]. push_append. reflexivity. }
  destruct (includes src "dall-e"); [|discriminate].
  intros [= <-]. reflexivity.
Qed.

(** What one item leaves under its key. *)
Lemma addItem_lookup (acc : gmap string PriceMeters) (it : Item) (key : string) :
  extractModelKey (default "" (meterName it)) (default "" (skuName it)) = Some key ->
  addItem acc it !! key
  = Some (applyMeter (default "" (meterName it)) (default (ofZ 0) (unitPrice it))
                     (default emptyMeters (acc !! key))).
Proof.
  intros Hk. unfold addItem. rewrite Hk, (extractModelKey_nonempty _ _ _ Hk).
  rewrite lookup_alter_eq.
  destruct (acc !! key) as [old|] eqn:Ho.
  - now rewrite Ho.
  - now rewrite lookup_insert_eq.
Qed.

(** The integer printed by [toFixed(6)] is the one nearest to the value
    times 10^6, the upper one of two. *)
Lemma fixedDigits_nearest (m k : positive) :
  (2 ^ Zpos k * (2 * fixedDigits m (Zneg k) - 1) <= 2 * Zpos m * 10 ^ 6
   < 2 ^ Zpos k * (2 * fixedDigits m (Zneg k) + 1))%Z.
Proof.
  unfold fixedDigits.
  assert (Hp : (0 < 2 ^ Zpos k)%Z) by (apply Z.pow_pos_nonneg; lia).
  set (b := (2 ^ Zpos k)%Z) in *.
  set (a := (2 * Z.pos m * 10 ^ 6 + b)%Z).
  pose proof (Z.mul_div_le a (2 * b) ltac:(lia)) as Hle.
  pose proof (Z.mul_succ_div_gt a (2 * b) ltac:(lia)) as Hgt.
  subst a. split; nia.
Qed.

(** C5, the claim as stated fails: one prompt token at 0.0019 per 1000
    costs 0.0000019 before rounding; the estimate is 0.000002, the nearest
    value with six decimals, where truncation would give 0.000001. *)
Lemma text_cost_is_rounded_not_truncated :
  fst (estimateCost defaultEstimator (mockNet smallPriceItems 5) 1
         (textInput "eastus" "gpt-4" 1 0) (initialWorld 0))
  = Return (decimal 2 6) /\
  truncate6 (add (mul (div (ofZ 1) (ofZ 1000)) (decimal 19 4))
                 (mul (div (ofZ 0) (ofZ 1000)) (ofZ 0)))
  = decimal 1 6 /\
  fst (estimateCost defaultEstimator (mockNet smallPriceItems 5) 1
         (textInput "eastus" "gpt-4" 1 0) (initialWorld 0))
  <> Return (truncate6 (add (mul (div (ofZ 1) (ofZ 1000)) (decimal 19 4))
                            (mul (div (ofZ 0) (ofZ 1000)) (ofZ 0)))).
Proof.
  repeat split; try (vm_compute; reflexivity).
  intros H; vm_compute in H; discriminate H.
Qed.

(** C5 (amended): when the meters found for the model define [inputUsd],
    [estimateCost] returns
    (promptTokens/1000) x inputUsd + (completionTokens/1000) x outputUsd,
    with 0 for a missing token count and for a missing [outputUsd], rounded
    to six decimals by [toFixed(6)]: to the nearest multiple of 10^-6, the
    upper one of two, not truncated.  With meters 0.03 and 0.06 and 500
    prompt and 200 completion tokens the result is 0.027. *)
Theorem text_model_cost (est : Estimator) (net : Transport) (fuel : nat)
  (input : CostInput) (w w1 : World) (pricing : CachedRegionPricing)
  (m : PriceMeters) (p : number) :
  ensurePricing est net fuel (toLowerCase (region input)) w = (Return tt, w1) ->
  cache w1 !! toLowerCase (region input) = Some pricing ->
  recordGet (meters pricing) (canonicalModelId (model input)) = Some m ->
  inputUsd m = Some p ->
  estimateCost est net fuel input w
  = (Return
       (round6
          (add (mul (div (default (ofZ 0) (promptTokens input)) (ofZ 1000)) p)
               (mul (div (default (ofZ 0) (completionTokens input)) (ofZ 1000))
                    (default (ofZ 0) (outputUsd m))))), w1) /\
  (forall (s : bool) (mant k : positive),
     atLeast1e21 mant (Zneg k) = false ->
     round6 (S754_finite s mant (Zneg k))
     = toNumber (FixedDecimal s (fixedDigits mant (Zneg k))) /\
     (2 ^ Zpos k * (2 * fixedDigits mant (Zneg k) - 1) <= 2 * Zpos mant * 10 ^ 6
      < 2 ^ Zpos k * (2 * fixedDigits mant (Zneg k) + 1))%Z) /\
  fst (estimateCost defaultEstimator (mockNet testItems 5) 1
         (textInput "eastus" "gpt-4" 500 200) (initialWorld 0))
  = Return (decimal 27 3).
Proof.
  intros He Hc Hm Hp. split; [|split].
  - rewrite (estimateCost_bills _ _ _ _ _ _ _ _ He Hc Hm).
    unfold billMeters. now rewrite Hp.
  - intros s mant k Hsmall. split; [|apply fixedDigits_nearest].
    unfold round6, toFixed6. now rewrite Hsmall.
  - vm_compute. reflexivity.
Qed.

Lemma text_model_cost_witness :
  estimateCost defaultEstimator (mockNet testItems 5) 1
    (textInput "eastus" "gpt-4" 500 200) (initialWorld 0)
  = (Return
       (round6
          (add (mul (div (ofZ 500) (ofZ 1000)) (decimal 3 2))
               (mul (div (ofZ 200) (ofZ 1000)) (decimal 6 2)))),
     fetchedWorld testItems) /\
  (round6 (S754_finite false 8972496317452326 (-72))
   = toNumber (FixedDecimal false (fixedDigits 8972496317452326 (-72))) /\
   (2 ^ 72 * (2 * fixedDigits 8972496317452326 (-72) - 1)
    <= 2 * 8972496317452326 * 10 ^ 6
    < 2 ^ 72 * (2 * fixedDigits 8972496317452326 (-72) + 1))%Z).
Proof.
  pose proof (text_model_cost defaultEstimator (mockNet testItems 5) 1
                (textInput "eastus" "gpt-4" 500 200) (initialWorld 0)
                (fetchedWorld testItems)
                {| fetchedAt := 5; meters := normalize testItems |}
                {| inputUsd := Some (decimal 3 2);
                   outputUsd := Some (decimal 6 2);
                   imageUsd := None |}
                (decimal 3 2)
                ltac:(vm_compute; reflexivity) ltac:(vm_compute; reflexivity)
                ltac:(vm_compute; reflexivity) ltac:(reflexivity))
    as (Hcost & Hround & _).
  split.
  - exact Hcost.
  - apply (Hround false 8972496317452326%positive 72%positive). reflexivity.
Defined.

(** C6, the claim as stated fails: at 0.00001 per 100 images one image
    costs 0.0000001, and the estimate, rounded to six decimals, is 0. *)
Lemma image_cost_is_rounded :
  fst (estimateCost defaultEstimator (mockNet cheapImageItems 5) 1
         {| region := "eastus"; model := "dall-e"; promptTokens := None;
            completionTokens := None; imageCount := None |} (initialWorld 0))
  = Return (ofZ 0) /\
  imageUsd <$> (normalize cheapImageItems !! "dall-e")
  = Some (Some (div (decimal 1 5) (ofZ 100))) /\
  fst (estimateCost defaultEstimator (mockNet cheapImageItems 5) 1
         {| region := "eastus"; model := "dall-e"; promptTokens := None;
            completionTokens := None; imageCount := None |} (initialWorld 0))
  <> Return (mul (ofZ 1) (div (decimal 1 5) (ofZ 100))).
Proof.
  repeat split; try (vm_compute; reflexivity).
  intros H; vm_compute in H; discriminate H.
Qed.

(** C6 (amended): an item with a model key whose meter name contains
    "image" (any case) leaves [imageUsd = unitPrice / 100] under that key,
    the other fields of the key as they were; and when the meters found for
    the model define [imageUsd] and not [inputUsd], [estimateCost] returns
    imageCount x imageUsd, with 1 for a missing image count, rounded to six
    decimals by [toFixed(6)].  A raw unit price of 20 gives
    [imageUsd] = 0.20, and 5 images then cost 1. *)
Theorem image_meter_cost (est : Estimator) (net : Transport) (fuel : nat)
  (input : CostInput) (w w1 : World) (pricing : CachedRegionPricing)
  (m : PriceMeters) (price : number) :
  ensurePricing est net fuel (toLowerCase (region input)) w = (Return tt, w1) ->
  cache w1 !! toLowerCase (region input) = Some pricing ->
  recordGet (meters pricing) (canonicalModelId (model input)) = Some m ->
  inputUsd m = None ->
  imageUsd m = Some price ->
  estimateCost est net fuel input w
  = (Return (round6 (mul (default (ofZ 1) (imageCount input)) price)), w1) /\
  (forall (acc : gmap string PriceMeters) (it : Item) (key : string),
     extractModelKey (default "" (meterName it)) (default "" (skuName it))
     = Some key ->
     testIgnoreCase "image" (default "" (meterName it)) = true ->
     addItem acc it !! key
     = Some (setImageUsd (div (default (ofZ 0) (unitPrice it)) (ofZ 100))
                         (default emptyMeters (acc !! key)))) /\
  imageUsd <$> (normalize [item "DALL-E Image" "DALL-E" (ofZ 20)] !! "dall-e")
  = Some (Some (decimal 20 2)) /\
  fst (estimateCost defaultEstimator (mockNet testItems 5) 1
         (imageInput "eastus" "dall-e" 5) (initialWorld 0))
  = Return (ofZ 1).
Proof.
  intros He Hc Hm Hin Him. split; [|split; [|split]].
  - rewrite (estimateCost_bills _ _ _ _ _ _ _ _ He Hc Hm).
    unfold billMeters. rewrite Hin, Him. simpl. now rewrite andb_false_r.
  - intros acc it key Hk Himg. rewrite (addItem_lookup _ _ _ Hk).
    unfold applyMeter. now rewrite Himg.
  - vm_compute. reflexivity.
  - vm_compute. reflexivity.
Qed.

Lemma image_meter_cost_witness :
  estimateCost defaultEstimator (mockNet testItems 5) 1
    (imageInput "eastus" "dall-e" 5) (initialWorld 0)
  = (Return (round6 (mul (ofZ 5) (decimal 20 2))), fetchedWorld testItems) /\
  addItem ∅ (item "DALL-E Image" "DALL-E" (ofZ 20)) !! "dall-e"
  = Some (setImageUsd (div (ofZ 20) (ofZ 100)) emptyMeters).
Proof.
  pose proof (image_meter_cost defaultEstimator (mockNet testItems 5) 1
                (imageInput "eastus" "dall-e" 5) (initialWorld 0)
                (fetchedWorld testItems)
                {| fetchedAt := 5; meters := normalize testItems |}
                {| inputUsd := None; outputUsd := None;
                   imageUsd := Some (decimal 20 2) |}
                (decimal 20 2)
                ltac:(vm_compute; reflexivity) ltac:(vm_compute; reflexivity)
                ltac:(vm_compute; reflexivity) ltac:(reflexivity)
                ltac:(reflexivity)) as (Hcost & Hstore & _).
  split.
  - exact Hcost.
  - rewrite (Hstore ∅ (item "DALL-E Image" "DALL-E" (ofZ 20)) "dall-e")
      by (vm_compute; reflexivity).
    now rewrite lookup_empty.
Defined.

(** C7, the claim as stated fails: a meter whose name has none of the
    billing keywords leaves an entry with no price at all, and the estimate
    for that model is 0, not an error. *)
Lemma empty_meters_cost_zero :
  normalize unclassifiedItems !! "gpt-4" = Some emptyMeters /\
  fst (estimateCost defaultEstimator (mockNet unclassifiedItems 5) 1
         (textInput "eastus" "gpt-4" 500 200) (initialWorld 0))
  = Return (ofZ 0) /\
  fst (estimateCost defaultEstimator (mockNet unclassifiedItems 5) 1
         (textInput "eastus" "gpt-4" 500 200) (initialWorld 0))
  <> Throw UnsupportedMeterShape.
Proof.
  repeat split; try (vm_compute; reflexivity).
  intros H; vm_compute in H; discriminate H.
Qed.

(** C7 (amended): when meters are found for the model, [estimateCost] fails
    with the unsupported-shape error exactly when [inputUsd] and [imageUsd]
    are unset and [outputUsd] is set; when all three are unset it returns a
    number, which is 0 when the prompt token count is missing. *)
Theorem unsupported_meter_shape (est : Estimator) (net : Transport) (fuel : nat)
  (input : CostInput) (w w1 : World) (pricing : CachedRegionPricing)
  (m : PriceMeters) :
  ensurePricing est net fuel (toLowerCase (region input)) w = (Return tt, w1) ->
  cache w1 !! toLowerCase (region input) = Some pricing ->
  recordGet (meters pricing) (canonicalModelId (model input)) = Some m ->
  (fst (estimateCost est net fuel input w) = Throw UnsupportedMeterShape <->
   inputUsd m = None /\ imageUsd m = None /\ outputUsd m <> None) /\
  (inputUsd m = None -> outputUsd m = None -> imageUsd m = None ->
   estimateCost est net fuel input w
   = (Return (round6 (mul (div (default (ofZ 0) (promptTokens input)) (ofZ 1000))
                          (ofZ 0))), w1) /\
   (promptTokens input = None ->
    estimateCost est net fuel input w = (Return (ofZ 0), w1))).
Proof.
  intros He Hc Hm. rewrite (estimateCost_bills _ _ _ _ _ _ _ _ He Hc Hm).
  unfold billMeters. simpl. split.
  - destruct (inputUsd m), (outputUsd m), (imageUsd m); simpl;
      split; try discriminate; try tauto; try (intros (? & ? & ?); congruence);
      intros _; repeat split; discriminate.
  - intros -> -> ->. simpl. split; [reflexivity|].
    intros ->. reflexivity.
Qed.

Lemma unsupported_meter_shape_witness :
  (fst (estimateCost defaultEstimator (mockNet outputOnlyItems 5) 1
          (textInput "eastus" "gpt-4" 500 200) (initialWorld 0))
   = Throw UnsupportedMeterShape <->
   @None number = None /\ @None number = None /\ Some (decimal 6 2) <> None) /\
  estimateCost defaultEstimator (mockNet unclassifiedItems 5) 1
    {| region := "eastus"; model := "gpt-4"; promptTokens := None;
       completionTokens := None; imageCount := None |} (initialWorld 0)
  = (Return (ofZ 0), fetchedWorld unclassifiedItems).
Proof.
  split.
  - apply (proj1 (unsupported_meter_shape defaultEstimator
                    (mockNet outputOnlyItems 5) 1
                    (textInput "eastus" "gpt-4" 500 200) (initialWorld 0)
                    (fetchedWorld outputOnlyItems)
                    {| fetchedAt := 5; meters := normalize outputOnlyItems |}
                    {| inputUsd := None; outputUsd := Some (decimal 6 2);
                       imageUsd := None |}
                    ltac:(vm_compute; reflexivity) ltac:(vm_compute; reflexivity)
                    ltac:(vm_compute; reflexivity))).
  - apply (proj2 (unsupported_meter_shape defaultEstimator
                    (mockNet unclassifiedItems 5) 1
                    {| region := "eastus"; model := "gpt-4"; promptTokens := None;
                       completionTokens := None; imageCount := None |}
                    (initialWorld 0)
                    (fetchedWorld unclassifiedItems)
                    {| fetchedAt := 5; meters := normalize unclassifiedItems |}
                    emptyMeters
                    ltac:(vm_compute; reflexivity) ltac:(vm_compute; reflexivity)
                    ltac:(vm_compute; reflexivity))
                 eq_refl eq_refl eq_refl); reflexivity.
Defined.

(** * Further properties of the canonicaliser *)

Lemma allChars_app (P : ascii -> bool) (a b : string) :
  allChars P (a ++ b) = allChars P a && allChars P b.
Proof.
  induction a as [|c a IH]; push_append; simpl; [reflexivity|].
  now rewrite IH, andb_assoc.
Qed.

Lemma allChars_impl (P Q : ascii -> bool) (s : string) :
  (forall c, P c = true -> Q c = true) ->
  allChars P s = true -> allChars Q s = true.
Proof.
  intros HPQ. induction s as [|c s IH]; simpl; [reflexivity|].
  intros H. apply andb_true_iff in H as [Hc Hs].
  now rewrite (HPQ c Hc), IH.
Qed.

(** A string in which the first character of [sub] does not occur does not
    include [sub]. *)
Lemma includes_absent (s : string) (c : ascii) (sub : string) :
  allChars (fun x => negb (Ascii.eqb c x)) s = true ->
  includes s (String c sub) = false.
Proof.
  induction s as [|d s IH]; simpl; [reflexivity|].
  intros H. apply andb_true_iff in H as [Hd Hs].
  apply negb_true_iff in Hd. unfold startsWith. simpl. rewrite Hd. now apply IH.
Qed.

Lemma digit_facts (c : ascii) :
  isDigit c = true ->
  lowerChar c = c /\ isSep c = false /\ Ascii.eqb "m" c = false /\
  isKeyChar c = true /\ isWordChar c = true.
Proof.
  destruct c as [[] [] [] [] [] [] [] []]; intros H; try discriminate H;
    repeat split; reflexivity.
Qed.

Lemma toLowerCase_digits (v : string) :
  allChars isDigit v = true -> toLowerCase v = v.
Proof.
  induction v as [|c v IH]; simpl; [reflexivity|].
  intros H. apply andb_true_iff in H as [Hc Hv].
  destruct (digit_facts c Hc) as (-> & _). now rewrite IH.
Qed.

Lemma takeDigits_allChars (s : string) : allChars isDigit (takeDigits s) = true.
Proof.
  induction s as [|c s IH]; simpl; [reflexivity|].
  destruct (isDigit c) eqn:E; simpl; [now rewrite E|reflexivity].
Qed.

(** The greedy digit run stops where the digits stop. *)
Lemma takeDigits_app (v rest : string) :
  allChars isDigit v = true ->
  takeDigits rest = "" ->
  takeDigits (v ++ rest) = v.
Proof.
  intros Hv Hr. induction v as [|c v IH]; push_append; [exact Hr|].
  simpl in *. apply andb_true_iff in Hv as [Hc Hv]. now rewrite Hc, IH.
Qed.

Lemma skipSep_digits (v rest : string) :
  v <> "" -> allChars isDigit v = true -> skipSep (v ++ rest) = v ++ rest.
Proof.
  destruct v as [|c v]; [congruence|]. intros _ H. simpl in H.
  apply andb_true_iff in H as [Hc _]. push_append. simpl.
  now destruct (digit_facts c Hc) as (_ & -> & _).
Qed.

(** The o-family pattern at an "o" followed by digits, with or without a
    separator between them. *)
Lemma oFamilyAt_digits (v rest : string) :
  v <> "" -> allChars isDigit v = true -> takeDigits rest = "" ->
  oFamilyAt (String "o" (v ++ rest)) = Some v /\
  oFamilyAt (String "o" (String "-" (v ++ rest))) = Some v /\
  oFamilyAt (String "o" (String " " (v ++ rest))) = Some v.
Proof.
  intros Hne Hv Hr.
  assert (H : match takeDigits (v ++ rest) with
              | EmptyString => None
              | v' => Some v'
              end = Some v).
  { rewrite (takeDigits_app v rest Hv Hr). destruct v; congruence. }
  repeat split; unfold oFamilyAt; simpl;
    rewrite ?(skipSep_digits v rest Hne Hv); exact H.
Qed.

(** What the o-family pattern captures is a non-empty run of digits. *)
Lemma oFamilyScan_version (b : bool) (s v : string) :
  oFamilyScan b s = Some v -> v <> "" /\ allChars isDigit v = true.
Proof.
  revert b. induction s as [|c s IH]; intros b; simpl; [discriminate|].
  destruct b; [apply IH|].
  destruct (Ascii.eqb (lowerChar c) "o"); [|apply IH].
  destruct (takeDigits (skipSep s)) as [|d t] eqn:E; [apply IH|].
  intros [= <-]. split; [discriminate|].
  rewrite <- E. apply takeDigits_allChars.
Qed.

Lemma includes_app_r (a b sub : string) :
  includes b sub = true -> includes (a ++ b) sub = true.
Proof.
  intros H. induction a as [|c a IH]; push_append; [exact H|].
  now apply includes_cons.
Qed.

Lemma digits_without_m (v : string) :
  allChars isDigit v = true ->
  allChars (fun x => negb (Ascii.eqb "m" x)) v = true.
Proof.
  apply allChars_impl. intros c Hc.
  now destruct (digit_facts c Hc) as (_ & _ & -> & _).
Qed.

Lemma append_empty_r (s : string) : s ++ "" = s.
Proof. induction s as [|c s IH]; [reflexivity|]. now rewrite append_cons, IH. Qed.

Lemma takeDigits_version (v rest : string) :
  v <> "" -> allChars isDigit v = true -> takeDigits rest = "" ->
  match takeDigits (v ++ rest) with
  | EmptyString => None
  | String a s0 => Some (String a s0)
  end = Some v.
Proof.
  intros Hne Hv Hr. rewrite (takeDigits_app v rest Hv Hr). destruct v; congruence.
Qed.

(** The key of a spelling [pre ++ v ++ post] in which the o-family pattern
    finds the digits [v]. *)
Lemma canonicalModelId_o_spelling (pre post v : string) :
  allChars isDigit v = true ->
  oFamilyMatch (toLowerCase pre ++ v ++ toLowerCase post) = Some v ->
  canonicalModelId (pre ++ v ++ post)
  = "o" ++ v ++ (if includes (toLowerCase pre ++ v ++ toLowerCase post) "mini"
                 then "-mini" else "").
Proof.
  intros Hv Hm. rewrite (canonicalModelId_o_family _ v);
    now rewrite !toLowerCase_app, (toLowerCase_digits v Hv).
Qed.

(** Finds the digits [v] after the literal prefix of a spelling. *)
Ltac o_match v Hne Hv :=
  unfold oFamilyMatch; simpl; push_append; simpl;
  rewrite ?(skipSep_digits v _ Hne Hv);
  now rewrite (takeDigits_version v _ Hne Hv) by reflexivity.

(** No "mini" without an "m". *)
Lemma includes_mini_absent (pre v post : string) :
  allChars (fun x => negb (Ascii.eqb "m" x)) pre = true ->
  allChars isDigit v = true ->
  allChars (fun x => negb (Ascii.eqb "m" x)) post = true ->
  includes (pre ++ v ++ post) "mini" = false.
Proof.
  intros Hpre Hv Hpost. apply includes_absent.
  now rewrite !allChars_app, Hpre, (digits_without_m v Hv), Hpost.
Qed.

Ltac o_plain v Hne Hv :=
  rewrite <- (append_empty_r v) at 1;
  rewrite canonicalModelId_o_spelling; [|exact Hv|o_match v Hne Hv];
  rewrite includes_mini_absent by (reflexivity || exact Hv);
  now rewrite append_empty_r.

Lemma includes_tail (pre v post sub : string) :
  includes post sub = true -> includes (pre ++ v ++ post) sub = true.
Proof. intros H. now apply includes_app_r, includes_app_r. Qed.

Ltac o_mini v Hne Hv :=
  rewrite canonicalModelId_o_spelling; [|exact Hv|o_match v Hne Hv];
  now rewrite includes_tail by reflexivity.

(** X1: the o-family rule covers every version number, not only 3: for
    every non-empty digit string [v], the spellings "o<v>", "O<v>", "o-<v>",
    "o <v>", "OpenAI-o<v>" and "openai.o<v>" canonicalise to "o<v>", and
    "o<v>-mini", "O<v>-MINI", "o<v>mini", "o-<v>-mini", "o-<v>mini",
    "o <v> mini" and "OpenAI-o<v>-mini" to "o<v>-mini". *)
Theorem o_family_any_version (v : string) :
  v <> "" -> allChars isDigit v = true ->
  (canonicalModelId ("o" ++ v) = "o" ++ v /\
   canonicalModelId ("O" ++ v) = "o" ++ v /\
   canonicalModelId ("o-" ++ v) = "o" ++ v /\
   canonicalModelId ("o " ++ v) = "o" ++ v /\
   canonicalModelId ("OpenAI-o" ++ v) = "o" ++ v /\
   canonicalModelId ("openai.o" ++ v) = "o" ++ v) /\
  (canonicalModelId ("o" ++ v ++ "-mini") = "o" ++ v ++ "-mini" /\
   canonicalModelId ("O" ++ v ++ "-MINI") = "o" ++ v ++ "-mini" /\
   canonicalModelId ("o" ++ v ++ "mini") = "o" ++ v ++ "-mini" /\
   canonicalModelId ("o-" ++ v ++ "-mini") = "o" ++ v ++ "-mini" /\
   canonicalModelId ("o-" ++ v ++ "mini") = "o" ++ v ++ "-mini" /\
   canonicalModelId ("o " ++ v ++ " mini") = "o" ++ v ++ "-mini" /\
   canonicalModelId ("OpenAI-o" ++ v ++ "-mini") = "o" ++ v ++ "-mini").
Proof.
  intros Hne Hv. split.
  - repeat split; o_plain v Hne Hv.
  - repeat split; o_mini v Hne Hv.
Qed.

Lemma o_family_any_version_witness :
  canonicalModelId ("OpenAI-o" ++ "17") = "o" ++ "17" /\
  canonicalModelId ("o " ++ "4" ++ " mini") = "o" ++ "4" ++ "-mini".
Proof.
  split.
  - apply (o_family_any_version "17"); [discriminate|reflexivity].
  - apply (o_family_any_version "4"); [discriminate|reflexivity].
Defined.

(** X2: both canonicalisers look at letters through [toLowerCase] only:
    model strings that agree up to letter case get the same key, and so do
    meter and SKU names that agree up to letter case. *)
Theorem keys_ignore_letter_case :
  (forall a b : string,
     toLowerCase a = toLowerCase b -> canonicalModelId a = canonicalModelId b) /\
  (forall meter meter' sku sku' : string,
     toLowerCase meter = toLowerCase meter' ->
     toLowerCase sku = toLowerCase sku' ->
     extractModelKey meter sku = extractModelKey meter' sku') /\
  (forall model meter sku : string,
     canonicalModelId (toLowerCase model) = canonicalModelId model /\
     extractModelKey (toLowerCase meter) (toLowerCase sku)
     = extractModelKey meter sku).
Proof.
  assert (Hc : forall a b, toLowerCase a = toLowerCase b ->
                           canonicalModelId a = canonicalModelId b).
  { intros a b H. unfold canonicalModelId, fallbackKey. now rewrite H. }
  assert (He : forall m m' s s', toLowerCase m = toLowerCase m' ->
                                 toLowerCase s = toLowerCase s' ->
                                 extractModelKey m s = extractModelKey m' s').
  { intros m m' s s' Hm Hs. unfold extractModelKey.
    now rewrite !toLowerCase_app, Hm, Hs. }
  split; [exact Hc|split; [exact He|]].
  intros model meter sku. split.
  - apply Hc, toLowerCase_idem.
  - apply He; apply toLowerCase_idem.
Qed.

Lemma keys_ignore_letter_case_witness :
  canonicalModelId "GPT-4-Turbo" = canonicalModelId "gpt-4-turbo" /\
  extractModelKey "DALL-E IMAGE" "Standard" = extractModelKey "dall-e image" "STANDARD".
Proof.
  split.
  - apply (proj1 keys_ignore_letter_case "GPT-4-Turbo" "gpt-4-turbo"). reflexivity.
  - apply (proj1 (proj2 keys_ignore_letter_case)
             "DALL-E IMAGE" "dall-e image" "Standard" "STANDARD"); reflexivity.
Defined.

(** ** The keys of the vendor path *)

Lemma firstAlt_In (alts : list string) (s a : string) :
  firstAlt alts s = Some a -> In a alts.
Proof.
  induction alts as [|x alts IH]; simpl; [discriminate|].
  destruct (startsWith s x); [intros [= <-]; now left|].
  intros H. right. now apply IH.
Qed.

Lemma gptAt_shape (s g1 : string) (g2 : option string) :
  gptAt s = Some (g1, g2) ->
  In (replaceFirst "." "" g1) gptVersions /\
  (forall suffix, g2 = Some suffix -> In suffix gptSuffixes).
Proof.
  unfold gptAt. destruct (stripPrefix "gpt" s) as [r|]; [|discriminate].
  destruct (skipSep r) as [|c r2]; [discriminate|].
  destruct (Ascii.eqb c "3" || Ascii.eqb c "4") eqn:E; [|discriminate].
  assert (Hc : c = "3"%char \/ c = "4"%char).
  { apply orb_true_iff in E as [E|E]; apply Ascii.eqb_eq in E; auto. }
  destruct (stripPrefix ".5" r2) as [r3|]; cbv beta iota zeta;
    match goal with
    | |- Some (_, firstAlt _ ?x) = _ -> _ => generalize x
    end;
    intros r4 H; injection H as <- <-;
    (split; [|intros suffix Hs; exact (firstAlt_In gptSuffixes r4 suffix Hs)]);
    destruct Hc as [-> | ->]; vm_compute; tauto.
Qed.

Lemma gptMatch_shape (s g1 : string) (g2 : option string) :
  gptMatch s = Some (g1, g2) ->
  In (replaceFirst "." "" g1) gptVersions /\
  (forall suffix, g2 = Some suffix -> In suffix gptSuffixes).
Proof.
  induction s as [|c s IH]; cbn [gptMatch].
  - destruct (gptAt "") as [m|] eqn:E; [|discriminate].
    intros [= ->]. exact (gptAt_shape _ _ _ E).
  - destruct (gptAt (String c s)) as [m|] eqn:E; [|exact IH].
    intros [= ->]. exact (gptAt_shape _ _ _ E).
Qed.

Lemma lastFamily_In (s f : string) : lastFamily s = Some f -> In f embeddingFamilies.
Proof.
  induction s as [|c s IH]; cbn [lastFamily]; [discriminate|].
  destruct (isLineTerminator c).
  - apply firstAlt_In.
  - destruct (lastFamily s) as [f'|]; [intros [= <-]; now apply IH|].
    apply firstAlt_In.
Qed.

Lemma embedMatch_In (s f : string) : embedMatch s = Some f -> In f embeddingFamilies.
Proof.
  induction s as [|c s IH]; cbn [embedMatch].
  - destruct (stripPrefix "embedding" "") as [r|]; [|discriminate].
    destruct (lastFamily r) as [f'|] eqn:E; [|discriminate].
    intros [= <-]. exact (lastFamily_In _ _ E).
  - destruct (stripPrefix "embedding" (String c s)) as [r|].
    + destruct (lastFamily r) as [f'|] eqn:E; [|exact IH].
      intros [= <-]. exact (lastFamily_In _ _ E).
    + exact IH.
Qed.

Lemma extractModelKey_VendorKey (meterName skuName k : string) :
  extractModelKey meterName skuName = Some k -> VendorKey k.
Proof.
  unfold extractModelKey.
  set (src := toLowerCase (meterName ++ " " ++ skuName)).
  destruct (oFamilyMatch src) as [v|] eqn:Ho.
  { destruct (oFamilyScan_version _ _ _ Ho) as [Hne Hv].
    destruct (includes src "mini"); intros [= <-].
    - now apply VendorOMini.
    - rewrite append_empty_r. now apply VendorO. }
  destruct (includes src "gpt-35" || includes src "gpt35").
  { intros [= <-]. apply VendorGpt35Turbo. }
  destruct (gptMatch src) as [[g1 g2]|] eqn:Hg.
  { destruct (gptMatch_shape _ _ _ Hg) as [Hver Hsuf].
    destruct g2 as [suffix|]; intros [= <-].
    - apply VendorGptSuffix; [exact Hver|now apply Hsuf].
    - rewrite append_empty_r. now apply VendorGpt. }
  destruct (embedMatch src) as [fam|] eqn:He.
  { intros [= <-]. apply VendorEmbedding. exact (embedMatch_In _ _ He). }
  destruct (includes src "dall-e"); [|discriminate].
  intros [= <-]. apply VendorDallE.
Qed.

(** X3: [extractModelKey] returns nothing but keys of five shapes: "o" and
    digits, with "-mini" or not; "gpt-35-turbo"; "gpt-" and one of the
    versions 3, 4, 35, 45, with or without one of the listed suffixes after
    a hyphen; "text-embedding-" and a listed family name; "dall-e". *)
Theorem extractModelKey_shape (meterName skuName k : string) :
  extractModelKey meterName skuName = Some k -> VendorKey k.
Proof. apply extractModelKey_VendorKey. Qed.

Lemma extractModelKey_shape_witness : VendorKey "gpt-4-o".
Proof.
  apply (extractModelKey_shape "GPT-4o Input Tokens" "Standard"). reflexivity.
Defined.

Lemma VendorKey_fixed (k : string) : VendorKey k -> canonicalModelId k = k.
Proof.
  intros [v Hne Hv|v Hne Hv| |ver Hver|ver suffix Hver Hsuf|family Hfam| ].
  - o_plain v Hne Hv.
  - o_mini v Hne Hv.
  - reflexivity.
  - simpl in Hver. repeat (destruct Hver as [<-|Hver]; [reflexivity|]).
    destruct Hver.
  - simpl in Hver, Hsuf.
    repeat (destruct Hver as [<-|Hver];
            [repeat (destruct Hsuf as [<-|Hsuf]; [reflexivity|]); destruct Hsuf|]).
    destruct Hver.
  - simpl in Hfam. repeat (destruct Hfam as [<-|Hfam]; [reflexivity|]).
    destruct Hfam.
  - reflexivity.
Qed.

(** X4: the two paths agree on every key of the price table: a key made by
    [extractModelKey] from a meter, typed as the model name, is canonicalised
    to itself. *)
Theorem vendor_key_typed_by_user (meterName skuName k : string) :
  extractModelKey meterName skuName = Some k -> canonicalModelId k = k.
Proof. intros H. apply VendorKey_fixed. exact (extractModelKey_VendorKey _ _ _ H). Qed.

Lemma vendor_key_typed_by_user_witness :
  canonicalModelId "text-embedding-ada" = "text-embedding-ada".
Proof.
  apply (vendor_key_typed_by_user "Text embedding ada" "Text Embedding").
  reflexivity.
Defined.

(** ** The alphabet of user keys *)

Lemma isHyphen_eqb (c : ascii) : isHyphen c = Ascii.eqb "-" c.
Proof. destruct c as [[] [] [] [] [] [] [] []]; reflexivity. Qed.

Lemma startsWith_hyphen (c : ascii) (r : string) :
  startsWith (String c r) "-" = isHyphen c.
Proof.
  unfold startsWith. cbn [stripPrefix]. rewrite isHyphen_eqb.
  now destruct (Ascii.eqb "-" c).
Qed.

Lemma startsWith_double_hyphen (c : ascii) (r : string) :
  startsWith (String c r) "--" = isHyphen c && startsWith r "-".
Proof.
  unfold startsWith. cbn [stripPrefix]. rewrite isHyphen_eqb.
  destruct (Ascii.eqb "-" c); [|reflexivity]. cbn [andb].
  destruct r as [|d r]; [reflexivity|]. now destruct (Ascii.eqb "-" d).
Qed.

Lemma includes_double_hyphen_cons (c : ascii) (r : string) :
  includes (String c r) "--" = (isHyphen c && startsWith r "-") || includes r "--".
Proof.
  cbn [includes]. rewrite startsWith_double_hyphen.
  now destruct (isHyphen c && startsWith r "-").
Qed.

Lemma replaceNonAlnum_keyChars (s : string) :
  allChars isKeyChar (replaceNonAlnum s) = true.
Proof.
  induction s as [|c s IH]; cbn [replaceNonAlnum allChars]; [reflexivity|].
  rewrite IH, andb_true_r.
  destruct c as [[] [] [] [] [] [] [] []]; reflexivity.
Qed.

Lemma collapseHyphens_allChars (P : ascii -> bool) (s : string) :
  allChars P s = true -> allChars P (collapseHyphens s) = true.
Proof.
  induction s as [|c s IH]; simpl; [reflexivity|].
  intros H. apply andb_true_iff in H as [Hc Hs].
  destruct (isHyphen c && startsWith s "-"); simpl; [now apply IH|].
  now rewrite Hc, IH.
Qed.

(** Collapsing keeps the first character a hyphen or not. *)
Lemma collapseHyphens_head (s : string) :
  startsWith (collapseHyphens s) "-" = startsWith s "-".
Proof.
  induction s as [|c s IH]; [reflexivity|]. cbn [collapseHyphens].
  destruct (isHyphen c && startsWith s "-") eqn:E.
  - apply andb_true_iff in E as [Hc Hs]. now rewrite IH, Hs, startsWith_hyphen.
  - now rewrite !startsWith_hyphen.
Qed.

Lemma collapseHyphens_no_double (s : string) :
  includes (collapseHyphens s) "--" = false.
Proof.
  induction s as [|c s IH]; [reflexivity|]. cbn [collapseHyphens].
  destruct (isHyphen c && startsWith s "-") eqn:E; [exact IH|].
  now rewrite includes_double_hyphen_cons, collapseHyphens_head, E, IH.
Qed.

Lemma includes_after_digits (v post sub : string) :
  allChars isDigit v = true ->
  includes (v ++ post) (String "-" sub) = includes post (String "-" sub).
Proof.
  intros Hv. induction v as [|c v IH]; push_append; [reflexivity|].
  simpl in Hv. apply andb_true_iff in Hv as [Hc Hv].
  cbn [includes]. unfold startsWith at 1. cbn [stripPrefix].
  assert (Hne : Ascii.eqb "-" c = false).
  { clear - Hc. destruct c as [[] [] [] [] [] [] [] []]; try reflexivity;
      discriminate Hc. }
  rewrite Hne. now apply IH.
Qed.

Lemma canonicalModelId_key_shape (model : string) :
  allChars isKeyChar (canonicalModelId model) = true /\
  startsWith (canonicalModelId model) "-" = false /\
  includes (canonicalModelId model) "--" = false.
Proof.
  unfold canonicalModelId.
  destruct (oFamilyMatch (toLowerCase model)) as [v|] eqn:Ho.
  - destruct (oFamilyScan_version _ _ _ Ho) as [Hne Hv].
    assert (Hk : allChars isKeyChar v = true).
    { revert Hv. apply allChars_impl. intros c Hc.
      now destruct (digit_facts c Hc) as (_ & _ & _ & -> & _). }
    push_append. split; [|split].
    + cbn [allChars]. rewrite allChars_app, Hk.
      now destruct (includes (toLowerCase model) "mini").
    + reflexivity.
    + rewrite includes_double_hyphen_cons. simpl.
      rewrite (includes_after_digits v _ "-" Hv).
      now destruct (includes (toLowerCase model) "mini").
  - destruct (includes (toLowerCase model) "gpt-3.5"
              || includes (toLowerCase model) "gpt3.5").
    { repeat split; reflexivity. }
    rewrite fallbackKey_strips_leading_only.
    pose proof (collapseHyphens_allChars isKeyChar _
                  (replaceNonAlnum_keyChars (toLowerCase model))) as Hk.
    pose proof (collapseHyphens_no_double (replaceNonAlnum (toLowerCase model)))
      as Hd.
    destruct (collapseHyphens (replaceNonAlnum (toLowerCase model))) as [|c r].
    { repeat split; reflexivity. }
    rewrite includes_double_hyphen_cons in Hd.
    apply orb_false_iff in Hd as [Hhead Hrest].
    simpl in Hk. apply andb_true_iff in Hk as [Hc Hr].
    destruct (isHyphen c) eqn:Eh.
    + simpl in Hhead. now repeat split.
    + rewrite startsWith_hyphen, includes_double_hyphen_cons, Eh, Hrest.
      cbn [allChars]. now rewrite Hc, Hr.
Qed.

(** X5: whatever the model string, its key is made of lower-case letters,
    digits and hyphens only, does not start with a hyphen and has no two
    hyphens in a row. *)
Theorem canonicalModelId_alphabet (model : string) :
  allChars isKeyChar (canonicalModelId model) = true /\
  startsWith (canonicalModelId model) "-" = false /\
  includes (canonicalModelId model) "--" = false.
Proof. apply canonicalModelId_key_shape. Qed.


(** * Further properties of the price table *)

Lemma addItem_other (acc : gmap string PriceMeters) (it : Item) (k : string) :
  itemKey it <> Some k -> addItem acc it !! k = acc !! k.
Proof.
  unfold itemKey, addItem. intros Hk.
  destruct (extractModelKey _ _) as [key|]; [|reflexivity].
  destruct (String.eqb key ""); [reflexivity|].
  assert (Hne : key <> k) by congruence.
  rewrite lookup_alter_ne by exact Hne.
  destruct (acc !! key); [reflexivity|]. now rewrite lookup_insert_ne.
Qed.

Lemma addItem_key (acc : gmap string PriceMeters) (it : Item) (k : string) :
  itemKey it = Some k ->
  addItem acc it !! k
  = Some (applyMeter (default "" (meterName it)) (default (ofZ 0) (unitPrice it))
                     (default emptyMeters (acc !! k))).
Proof. apply addItem_lookup. Qed.

Lemma fold_addItem_keys (items : list Item) (acc : gmap string PriceMeters)
  (k : string) :
  is_Some (fold_left addItem items acc !! k) <->
  is_Some (acc !! k) \/ exists it, In it items /\ itemKey it = Some k.
Proof.
  revert acc. induction items as [|it items IH]; intros acc; simpl.
  - split; [now left|]. now intros [H|(it & [] & _)].
  - rewrite IH. split.
    + intros [H|(it' & Hin & Hk)].
      * destruct (decide (itemKey it = Some k)) as [Hk|Hk].
        -- right. exists it. auto.
        -- rewrite (addItem_other _ _ _ Hk) in H. now left.
      * right. exists it'. auto.
    + intros [H|(it' & [<-|Hin] & Hk)].
      * left. destruct (decide (itemKey it = Some k)) as [Hk|Hk].
        -- rewrite (addItem_key _ _ _ Hk). eauto.
        -- now rewrite (addItem_other _ _ _ Hk).
      * left. rewrite (addItem_key _ _ _ Hk). eauto.
      * right. exists it'. auto.
Qed.

(** X6: the price table has an entry under a key exactly when some item of
    the list has that key: items whose text no rule recognises add nothing,
    and no other key appears. *)
Theorem normalize_keys (allItems : list Item) (k : string) :
  is_Some (normalize allItems !! k) <->
  exists it, In it allItems /\
             extractModelKey (default "" (meterName it)) (default "" (skuName it))
             = Some k.
Proof.
  unfold normalize. rewrite fold_addItem_keys, lookup_empty.
  split; [intros [[x Hx]|H]; [discriminate|exact H]|now right].
Qed.

Lemma normalize_keys_witness :
  is_Some (normalize testItems !! "dall-e").
Proof.
  apply (proj2 (normalize_keys testItems "dall-e")).
  exists (item "DALL-E Image" "DALL-E" (ofZ 20)). split; [|reflexivity].
  simpl. tauto.
Defined.

Lemma applyMeter_field (name : string) (price : number) :
  applyMeter name price
  = match meterField name with
    | Some ImageField => setImageUsd (div price (ofZ 100))
    | Some InputField => setInputUsd price
    | Some OutputField => setOutputUsd price
    | None => id
    end.
Proof.
  unfold applyMeter, meterField.
  destruct (testIgnoreCase "image" name); [reflexivity|].
  destruct (testIgnoreCase "input" name || testIgnoreCase "prompt" name);
    [reflexivity|].
  destruct (testIgnoreCase "output" name || testIgnoreCase "completion" name);
    [reflexivity|].
  now destruct (testIgnoreCase "embedding" name).
Qed.

Lemma normalize_snoc (allItems : list Item) (it : Item) :
  normalize (allItems ++ [it])%list = addItem (normalize allItems) it.
Proof. unfold normalize. now rewrite fold_left_app. Qed.

(** X7: the last item of the list decides the field its meter name stands
    for, and that field only: after it, its key has this price in that
    field (an image price divided by 100) whatever earlier items stored
    there, the two other fields of the key are as the earlier items left
    them, and all other keys are untouched. *)
Theorem last_item_wins (allItems : list Item) (it : Item) (k : string) :
  itemKey it = Some k ->
  let before := default emptyMeters (normalize allItems !! k) in
  let price := default (ofZ 0) (unitPrice it) in
  normalize (allItems ++ [it])%list !! k
  = Some match itemField it with
         | Some ImageField =>
             {| inputUsd := inputUsd before; outputUsd := outputUsd before;
                imageUsd := Some (div price (ofZ 100)) |}
         | Some InputField =>
             {| inputUsd := Some price; outputUsd := outputUsd before;
                imageUsd := imageUsd before |}
         | Some OutputField =>
             {| inputUsd := inputUsd before; outputUsd := Some price;
                imageUsd := imageUsd before |}
         | None => before
         end /\
  (forall k' : string,
     k' <> k ->
     normalize (allItems ++ [it])%list !! k' = normalize allItems !! k').
Proof.
  intros Hk before price. rewrite normalize_snoc. split.
  - rewrite (addItem_key _ _ _ Hk), applyMeter_field. unfold itemField.
    now destruct (meterField _) as [[]|].
  - intros k' Hne. apply addItem_other. congruence.
Qed.

Lemma last_item_wins_witness :
  normalize (testItems ++ [item "GPT-4 Input Tokens" "GPT-4" (decimal 5 2)])%list
  !! "gpt-4"
  = Some {| inputUsd := Some (decimal 5 2); outputUsd := Some (decimal 6 2);
            imageUsd := None |}.
Proof.
  rewrite (proj1 (last_item_wins testItems
                    (item "GPT-4 Input Tokens" "GPT-4" (decimal 5 2)) "gpt-4"
                    ltac:(reflexivity))).
  vm_compute. reflexivity.
Defined.

Lemma addItem_comm (acc : gmap string PriceMeters) (a b : Item) :
  itemKey a <> itemKey b \/ itemField a <> itemField b ->
  addItem (addItem acc a) b = addItem (addItem acc b) a.
Proof.
  intros Hdiff. apply map_eq. intros k.
  destruct (decide (itemKey a = Some k)) as [Ha|Ha];
    destruct (decide (itemKey b = Some k)) as [Hb|Hb].
  - rewrite (addItem_key (addItem acc a) b k Hb), (addItem_key acc a k Ha),
      (addItem_key (addItem acc b) a k Ha), (addItem_key acc b k Hb).
    cbn [default from_option id]. rewrite !applyMeter_field.
    destruct Hdiff as [Hd|Hd]; [congruence|]. unfold itemField in Hd.
    destruct (meterField (default "" (meterName a))) as [[]|];
      destruct (meterField (default "" (meterName b))) as [[]|];
      try congruence; reflexivity.
  - now rewrite (addItem_other (addItem acc a) b k Hb), (addItem_key acc a k Ha),
      (addItem_key (addItem acc b) a k Ha), (addItem_other acc b k Hb).
  - now rewrite (addItem_key (addItem acc a) b k Hb), (addItem_other acc a k Ha),
      (addItem_other (addItem acc b) a k Ha), (addItem_key acc b k Hb).
  - now rewrite (addItem_other (addItem acc a) b k Hb), (addItem_other acc a k Ha),
      (addItem_other (addItem acc b) a k Ha), (addItem_other acc b k Hb).
Qed.

(** X8: two neighbouring items may change places without any change to the
    price table, unless they have the same key and stand for the same
    field; so the order of the records matters only among meters of one
    field of one model. *)
Theorem normalize_swap (before after : list Item) (a b : Item) :
  itemKey a <> itemKey b \/ itemField a <> itemField b ->
  normalize (before ++ a :: b :: after)%list
  = normalize (before ++ b :: a :: after)%list.
Proof.
  intros Hdiff. unfold normalize. rewrite !fold_left_app. simpl.
  now rewrite (addItem_comm _ a b Hdiff).
Qed.

Lemma normalize_swap_witness :
  normalize ([] ++ item "GPT-4 Completion Tokens" "GPT-4" (decimal 6 2)
                :: item "GPT-4 Prompt Tokens" "GPT-4" (decimal 3 2) :: [])%list
  = normalize ([] ++ item "GPT-4 Prompt Tokens" "GPT-4" (decimal 3 2)
                  :: item "GPT-4 Completion Tokens" "GPT-4" (decimal 6 2) :: [])%list.
Proof.
  apply (normalize_swap [] []). right. vm_compute. discriminate.
Defined.

(** * Further properties of the estimator *)



(** X10: when the entry is absent or as old as the TTL and the transport
    rejects a request, on the first page or on a later one, [estimateCost]
    ends in that rejection and the cache is left exactly as it was: a stale
    entry stays, and nothing of the pages already read is stored. *)
Theorem failed_refresh_keeps_cache (est : Estimator) (net : Transport)
  (fuel : nat) (input : CostInput) (w : World) (e : Error) :
  (cache w !! toLowerCase (region input) = None \/
   exists c, cache w !! toLowerCase (region input) = Some c /\
             (cacheTTL est <= now w - fetchedAt c)%Z) ->
  fst (fetchPricing est net fuel (toLowerCase (region input)) w) = Throw e ->
  fst (estimateCost est net fuel input w) = Throw Rejected /\
  cache (snd (estimateCost est net fuel input w)) = cache w.
Proof.
  intros Hstale Hfail.
  rewrite estimateCost_unfold, ensurePricing_refresh by exact Hstale.
  pose proof (fetchPricing_cache est net fuel (toLowerCase (region input)) w) as Hc.
  pose proof (ensurePricing_throws est net fuel (toLowerCase (region input)) w e) as Hth.
  rewrite ensurePricing_refresh in Hth by exact Hstale.
  destruct (fetchPricing est net fuel (toLowerCase (region input)) w)
    as [[m|e0|] w1]; simpl in *; try discriminate.
  injection Hfail as ->. now rewrite (Hth eq_refl).
Qed.

Lemma failed_refresh_keeps_cache_witness :
  fst (estimateCost defaultEstimator downNet 1
         (textInput "eastus" "gpt-4" 500 200) (warmWorld 86400000))
  = Throw Rejected /\
  cache (snd (estimateCost defaultEstimator downNet 1
                (textInput "eastus" "gpt-4" 500 200) (warmWorld 86400000)))
  = cache (warmWorld 86400000).
Proof.
  apply (failed_refresh_keeps_cache defaultEstimator downNet 1
           (textInput "eastus" "gpt-4" 500 200) (warmWorld 86400000) Rejected).
  - right. exists {| fetchedAt := 0; meters := normalize testItems |}.
    split; [vm_compute; reflexivity|vm_compute; discriminate].
  - reflexivity.
Defined.

Lemma lowerCaseKeys_empty : lowerCaseKeys ∅.
Proof. intros k [x Hx]. now rewrite lookup_empty in Hx. Qed.

(** X11: a call never removes a cache entry and never touches the entry of
    another region; and since the only key it writes is lower-case, a cache
    whose keys are all lower-case, such as the empty one, stays so. *)
Theorem cache_frame_and_keys (est : Estimator) (net : Transport) (fuel : nat)
  (input : CostInput) (w : World) :
  (forall k : string,
     k <> toLowerCase (region input) ->
     cache (snd (estimateCost est net fuel input w)) !! k = cache w !! k) /\
  (forall k : string,
     is_Some (cache w !! k) ->
     is_Some (cache (snd (estimateCost est net fuel input w)) !! k)) /\
  (lowerCaseKeys (cache w) ->
   lowerCaseKeys (cache (snd (estimateCost est net fuel input w)))) /\
  lowerCaseKeys (cache (initialWorld (now w))).
Proof.
  rewrite estimateCost_world.
  destruct (ensurePricing_writes est net fuel (toLowerCase (region input)) w)
    as [-> | (e & ->)].
  - repeat split; auto. apply lowerCaseKeys_empty.
  - split; [|split; [|split]].
    + intros k Hk. now rewrite lookup_insert_ne.
    + intros k Hk. destruct (decide (toLowerCase (region input) = k)) as [<-|Hne].
      * rewrite lookup_insert_eq. eauto.
      * now rewrite lookup_insert_ne.
    + intros Hlow k. destruct (decide (toLowerCase (region input) = k)) as [<-|Hne].
      * intros _. apply toLowerCase_idem.
      * rewrite lookup_insert_ne by exact Hne. apply Hlow.
    + apply lowerCaseKeys_empty.
Qed.

Lemma cache_frame_and_keys_witness :
  cache (snd (estimateCost defaultEstimator (mockNet testItems 5) 1
                (textInput "WestEurope" "gpt-4" 500 200) (warmWorld 10)))
  !! "eastus"
  = cache (warmWorld 10) !! "eastus" /\
  lowerCaseKeys (cache (snd (estimateCost defaultEstimator (mockNet testItems 5) 1
                               (textInput "WestEurope" "gpt-4" 500 200)
                               (initialWorld 0)))).
Proof.
  split.
  - apply (proj1 (cache_frame_and_keys defaultEstimator (mockNet testItems 5) 1
                    (textInput "WestEurope" "gpt-4" 500 200) (warmWorld 10))).
    vm_compute. discriminate.
  - apply (proj1 (proj2 (proj2 (cache_frame_and_keys defaultEstimator
                                  (mockNet testItems 5) 1
                                  (textInput "WestEurope" "gpt-4" 500 200)
                                  (initialWorld 0))))).
    apply lowerCaseKeys_empty.
Defined.

(** ** The request URL *)

Lemma encodeURIComponent_app (a b : string) :
  encodeURIComponent (a ++ b) = encodeURIComponent a ++ encodeURIComponent b.
Proof.
  induction a as [|c a IH]; push_append; [reflexivity|].
  cbn [encodeURIComponent]. rewrite IH.
  generalize (encodeChar c). intros x.
  induction x as [|d x IHx]; push_append; [reflexivity|]. now rewrite IHx.
Qed.

(** Unreserved characters pass unchanged. *)
Lemma encodeURIComponent_unreserved (s : string) :
  allChars isUnreserved s = true -> encodeURIComponent s = s.
Proof.
  induction s as [|c s IH]; [reflexivity|]. cbn [allChars encodeURIComponent].
  intros H. apply andb_true_iff in H as [Hc Hs].
  unfold encodeChar. rewrite Hc, (IH Hs). reflexivity.
Qed.

(** X12: for a region and a currency made of unreserved characters
    (letters, digits, [-_.!~*'()]), the first page requested is the
    endpoint with the filter
    [serviceName eq 'Azure OpenAI Service' and armRegionName eq '<region>'
     and currencyCode eq '<currency>'], every space of it written [%20] and
    the region and the currency verbatim. *)
Theorem first_page_url (est : Estimator) (r : string) :
  allChars isUnreserved r = true ->
  allChars isUnreserved (currency est) = true ->
  firstPage est r
  = "https://prices.azure.com/api/retail/prices?$filter="
    ++ "serviceName%20eq%20'Azure%20OpenAI%20Service'%20and%20armRegionName%20eq%20'"
    ++ r ++ "'%20and%20currencyCode%20eq%20'" ++ currency est ++ "'".
Proof.
  intros Hr Hc. unfold firstPage, priceFilter, endpoint.
  rewrite !encodeURIComponent_app, (encodeURIComponent_unreserved r Hr),
    (encodeURIComponent_unreserved _ Hc).
  reflexivity.
Qed.

Lemma first_page_url_witness :
  firstPage (newEstimator {| optCurrency := Some "EUR"; optCacheTTL := None |})
            "westeurope"
  = "https://prices.azure.com/api/retail/prices?$filter="
    ++ "serviceName%20eq%20'Azure%20OpenAI%20Service'%20and%20armRegionName%20eq%20'"
    ++ "westeurope" ++ "'%20and%20currencyCode%20eq%20'" ++ "EUR" ++ "'".
Proof.
  apply (first_page_url
           (newEstimator {| optCurrency := Some "EUR"; optCacheTTL := None |})
           "westeurope"); reflexivity.
Defined.



(** ** Paging *)

Lemma fetchPages_chain (net : Transport) (i : nat) (url : string)
  (pages : list AzurePriceApiResponse) :
  PageChain net i url pages ->
  forall (fuel : nat) (acc : list Item) (w : World),
    i = length (requests w) ->
    length pages <= fuel ->
    exists more : list string,
      fetchPages net fuel url acc w
      = (Return (acc ++ pageItems pages)%list,
         {| cache := cache w;
            now := (now w + totalLatency net i (length pages))%Z;
            requests := (requests w ++ url :: more)%list |}) /\
      length (url :: more) = length pages.
Proof.
  induction 1 as [i url data Hresp Hlast|i url next data rest Hresp Hnext Hchain IH];
    intros fuel acc w Hi Hfuel.
  - destruct fuel as [|fuel]; [simpl in Hfuel; lia|].
    exists []. simpl. unfold bind, axiosGet. rewrite <- Hi, Hresp, Hlast.
    unfold ret, pageItems. simpl. rewrite app_nil_r, Z.add_0_r. auto.
  - destruct fuel as [|fuel]; [simpl in Hfuel; lia|].
    simpl in Hfuel.
    destruct (IH fuel (acc ++ Items data)%list
                {| cache := cache w;
                   now := (now w + latency net i)%Z;
                   requests := (requests w ++ [url])%list |})
      as (more & Heq & Hlen).
    { simpl. rewrite length_app. simpl. lia. }
    { lia. }
    exists (next :: more). simpl. unfold bind, axiosGet.
    rewrite <- Hi, Hresp, Hnext, Heq. simpl. split; [|simpl in Hlen; lia].
    unfold pageItems. simpl. rewrite <- !app_assoc. simpl.
    now rewrite Z.add_assoc.
Qed.

(** X14: when the entry of the region is absent or as old as the TTL and
    the server holds a chain of pages behind the first URL, each page but
    the last linking to the next, then with fuel for that many pages
    [estimateCost] does not stay pending: it sends one request per page,
    the first one to the first-page URL, and stores for the region the
    table normalised from the items of all pages in order, stamped with the
    time after the last page. *)
Theorem refresh_reads_all_pages (est : Estimator) (net : Transport) (fuel : nat)
  (input : CostInput) (w : World) (pages : list AzurePriceApiResponse) :
  (cache w !! toLowerCase (region input) = None \/
   exists c, cache w !! toLowerCase (region input) = Some c /\
             (cacheTTL est <= now w - fetchedAt c)%Z) ->
  PageChain net (length (requests w))
            (firstPage est (toLowerCase (region input))) pages ->
  length pages <= fuel ->
  cache (snd (estimateCost est net fuel input w)) !! toLowerCase (region input)
  = Some {| fetchedAt := (now w + totalLatency net (length (requests w))
                                               (length pages))%Z;
            meters := normalize (pageItems pages) |} /\
  (exists more : list string,
     requests (snd (estimateCost est net fuel input w))
     = (requests w ++ firstPage est (toLowerCase (region input)) :: more)%list /\
     S (length more) = length pages) /\
  fst (estimateCost est net fuel input w) <> Pending /\
  fst (estimateCost est net fuel input w) <> Throw Rejected.
Proof.
  intros Hstale Hchain Hfuel.
  destruct (fetchPages_chain _ _ _ _ Hchain fuel [] w eq_refl Hfuel)
    as (more & Hpages & Hlen).
  assert (Hfetch : fetchPricing est net fuel (toLowerCase (region input)) w
                   = (Return (normalize (pageItems pages)),
                      {| cache := cache w;
                         now := (now w + totalLatency net (length (requests w))
                                                      (length pages))%Z;
                         requests := (requests w
                                      ++ firstPage est (toLowerCase (region input))
                                      :: more)%list |})).
  { unfold fetchPricing, bind. now rewrite Hpages. }
  assert (Hfst : fst (estimateCost est net fuel input w) <> Pending /\
                 fst (estimateCost est net fuel input w) <> Throw Rejected).
  { rewrite estimateCost_unfold, ensurePricing_refresh, Hfetch by exact Hstale.
    simpl. rewrite lookup_insert_eq.
    destruct (recordGet _ _) as [m|]; simpl; [|split; discriminate].
    unfold billMeters.
    destruct (isDefined _); [split; discriminate|].
    destruct (negb _ && negb _); [split; discriminate|].
    destruct (imageUsd m); split; discriminate. }
  rewrite estimateCost_world, ensurePricing_refresh, Hfetch by exact Hstale.
  simpl. rewrite lookup_insert_eq.
  split; [reflexivity|split; [|exact Hfst]].
  exists more. split; [reflexivity|exact Hlen].
Qed.

Lemma refresh_reads_all_pages_witness :
  cache (snd (estimateCost defaultEstimator
                (twoPageNet smallPriceItems outputOnlyItems) 2
                (textInput "EastUS" "gpt-4" 1000 1000) (initialWorld 100)))
  !! toLowerCase "EastUS"
  = Some {| fetchedAt := 106;
            meters := normalize (smallPriceItems ++ outputOnlyItems)%list |}.
Proof.
  apply (refresh_reads_all_pages defaultEstimator
           (twoPageNet smallPriceItems outputOnlyItems) 2
           (textInput "EastUS" "gpt-4" 1000 1000) (initialWorld 100)
           [ {| Items := smallPriceItems; NextPageLink := Some "page-2" |};
             {| Items := outputOnlyItems; NextPageLink := None |} ]).
  - left. reflexivity.
  - eapply LinkedPage; [reflexivity|reflexivity|].
    apply LastPage; reflexivity.
  - simpl. lia.
Defined.

(** * Further properties of the cost formula *)

Lemma binary_round_aux_notNegative (m e : Z) (l : location) :
  notNegative (binary_round_aux prec emax false m e l) = true.
Proof.
  unfold binary_round_aux.
  destruct (shr_fexp prec emax m e l) as [mrs' e'].
  destruct (shr_fexp prec emax _ e' loc_Exact) as [mrs'' e''].
  destruct (shr_m mrs''); [reflexivity| |reflexivity].
  now destruct (Z.leb e'' (emax - prec)).
Qed.

Lemma mul_notNegative (x y : number) :
  notNegative x = true -> notNegative y = true -> notNegative (mul x y) = true.
Proof.
  destruct x as [[]|[]| |[] mx ex], y as [[]|[]| |[] my ey];
    try discriminate; try reflexivity.
  intros _ _. apply binary_round_aux_notNegative.
Qed.

Lemma div_notNegative (x y : number) :
  notNegative x = true -> notNegative y = true -> notNegative (div x y) = true.
Proof.
  destruct x as [[]|[]| |[] mx ex], y as [[]|[]| |[] my ey];
    try discriminate; try reflexivity.
  intros _ _. unfold div, SFdiv.
  destruct (SFdiv_core_binary prec emax (Z.pos mx) ex (Z.pos my) ey) as [[mz ez] lz].
  apply binary_round_aux_notNegative.
Qed.

Lemma add_notNegative (x y : number) :
  notNegative x = true -> notNegative y = true -> notNegative (add x y) = true.
Proof.
  destruct x as [[]|[]| |[] mx ex], y as [[]|[]| |[] my ey];
    try discriminate; try reflexivity.
  intros _ _. unfold add, SFadd, binary_normalize, binary_round. simpl.
  destruct (shl_align _ _ _) as [mz ez].
  apply binary_round_aux_notNegative.
Qed.

Lemma round6_notNegative (x : number) :
  notNegative x = true -> notNegative (round6 x) = true.
Proof.
  destruct x as [[]|[]| |[] m e]; try discriminate; try reflexivity.
  intros _. unfold round6, toFixed6.
  destruct (atLeast1e21 m e); [reflexivity|].
  unfold toNumber. destruct (fixedDigits m e) as [|p|p]; try reflexivity.
  apply (div_notNegative (S754_finite false p 0) (ofZ (10 ^ 6))); reflexivity.
Qed.

(** X15: when the token counts, the image count and the prices found for
    the model are not negative, the estimate is not a negative number: it
    is a value with the sign bit clear, or NaN (which only infinity times
    zero can give). *)
Theorem cost_is_not_negative (est : Estimator) (net : Transport) (fuel : nat)
  (input : CostInput) (w w1 : World) (pricing : CachedRegionPricing)
  (m : PriceMeters) (cost : number) :
  ensurePricing est net fuel (toLowerCase (region input)) w = (Return tt, w1) ->
  cache w1 !! toLowerCase (region input) = Some pricing ->
  recordGet (meters pricing) (canonicalModelId (model input)) = Some m ->
  whenDefined notNegative (inputUsd m) = true ->
  whenDefined notNegative (outputUsd m) = true ->
  whenDefined notNegative (imageUsd m) = true ->
  whenDefined notNegative (promptTokens input) = true ->
  whenDefined notNegative (completionTokens input) = true ->
  whenDefined notNegative (imageCount input) = true ->
  fst (estimateCost est net fuel input w) = Return cost ->
  notNegative cost = true.
Proof.
  intros He Hc Hm Hin Hout Himg Hp Hct Hn.
  rewrite (estimateCost_bills _ _ _ _ _ _ _ _ He Hc Hm). cbn [fst].
  assert (Hdef : forall (v : option number) (d : number),
            whenDefined notNegative v = true -> notNegative d = true ->
            notNegative (default d v) = true).
  { intros [x|] d Hv Hd; [exact Hv|exact Hd]. }
  unfold billMeters.
  destruct (isDefined (inputUsd m)).
  { intros [= <-]. apply round6_notNegative, add_notNegative;
      apply mul_notNegative; try apply div_notNegative; try apply Hdef;
      auto. }
  destruct (negb _ && negb _).
  { intros [= <-]. apply round6_notNegative, mul_notNegative;
      try apply div_notNegative; try apply Hdef; auto. }
  destruct (imageUsd m) as [price|]; [|discriminate].
  intros [= <-]. apply round6_notNegative, mul_notNegative; try apply Hdef; auto.
Qed.

Lemma cost_is_not_negative_witness : notNegative (decimal 27 3) = true.
Proof.
  apply (cost_is_not_negative defaultEstimator (mockNet testItems 5) 1
           (textInput "eastus" "gpt-4" 500 200) (initialWorld 0)
           (fetchedWorld testItems)
           {| fetchedAt := 5; meters := normalize testItems |}
           {| inputUsd := Some (decimal 3 2); outputUsd := Some (decimal 6 2);
              imageUsd := None |}
           (decimal 27 3));
    vm_compute; reflexivity.
Defined.

(** X16: no usage costs nothing: with finite prices, a text model billed
    for zero or unspecified prompt and completion tokens, and an image
    model billed for zero images, give the estimate 0. *)
Theorem zero_usage_costs_zero (est : Estimator) (net : Transport) (fuel : nat)
  (input : CostInput) (w w1 : World) (pricing : CachedRegionPricing)
  (m : PriceMeters) :
  ensurePricing est net fuel (toLowerCase (region input)) w = (Return tt, w1) ->
  cache w1 !! toLowerCase (region input) = Some pricing ->
  recordGet (meters pricing) (canonicalModelId (model input)) = Some m ->
  whenDefined isFiniteNumber (inputUsd m) = true ->
  whenDefined isFiniteNumber (outputUsd m) = true ->
  whenDefined isFiniteNumber (imageUsd m) = true ->
  (inputUsd m <> None ->
   whenDefined isZero (promptTokens input) = true ->
   whenDefined isZero (completionTokens input) = true ->
   estimateCost est net fuel input w = (Return (ofZ 0), w1)) /\
  (inputUsd m = None -> imageUsd m <> None ->
   forall z : number,
     imageCount input = Some z -> isZero z = true ->
     estimateCost est net fuel input w = (Return (ofZ 0), w1)).
Proof.
  intros He Hc Hm Hin Hout Himg.
  rewrite (estimateCost_bills _ _ _ _ _ _ _ _ He Hc Hm). unfold billMeters.
  split.
  - intros Hdef Hp Hct.
    destruct (inputUsd m) as [[| | |sp mp ep]|]; try discriminate; try congruence;
      destruct (outputUsd m) as [[| | |so mo eo]|]; try discriminate;
      destruct (promptTokens input) as [[| | |]|]; try discriminate;
      destruct (completionTokens input) as [[| | |]|]; try discriminate;
      repeat match goal with s : bool |- _ => destruct s end; reflexivity.
  - intros Hnone Hdef z Hz Hzero. rewrite Hnone, Hz.
    destruct (imageUsd m) as [[| | |sp mp ep]|]; try discriminate; try congruence;
      destruct z; try discriminate; cbn [isDefined negb andb];
      rewrite ?andb_false_r;
      repeat match goal with s : bool |- _ => destruct s end; reflexivity.
Qed.

Lemma zero_usage_costs_zero_witness :
  estimateCost defaultEstimator (mockNet testItems 5) 1
    (textInput "eastus" "gpt-4" 0 0) (initialWorld 0)
  = (Return (ofZ 0), fetchedWorld testItems) /\
  estimateCost defaultEstimator (mockNet testItems 5) 1
    (imageInput "eastus" "dall-e" 0) (initialWorld 0)
  = (Return (ofZ 0), fetchedWorld testItems).
Proof.
  split.
  - apply (proj1 (zero_usage_costs_zero defaultEstimator (mockNet testItems 5) 1
                    (textInput "eastus" "gpt-4" 0 0) (initialWorld 0)
                    (fetchedWorld testItems)
                    {| fetchedAt := 5; meters := normalize testItems |}
                    {| inputUsd := Some (decimal 3 2);
                       outputUsd := Some (decimal 6 2); imageUsd := None |}
                    ltac:(vm_compute; reflexivity) ltac:(vm_compute; reflexivity)
                    ltac:(vm_compute; reflexivity) ltac:(reflexivity)
                    ltac:(reflexivity) ltac:(reflexivity)));
      [discriminate|reflexivity|reflexivity].
  - apply (proj2 (zero_usage_costs_zero defaultEstimator (mockNet testItems 5) 1
                    (imageInput "eastus" "dall-e" 0) (initialWorld 0)
                    (fetchedWorld testItems)
                    {| fetchedAt := 5; meters := normalize testItems |}
                    {| inputUsd := None; outputUsd := None;
                       imageUsd := Some (decimal 20 2) |}
                    ltac:(vm_compute; reflexivity) ltac:(vm_compute; reflexivity)
                    ltac:(vm_compute; reflexivity) ltac:(reflexivity)
                    ltac:(reflexivity) ltac:(reflexivity))
                 eq_refl ltac:(discriminate) (ofZ 0));
      reflexivity.
Defined.

(** * Further properties of the lookup *)

(** Of the names a table inherits, "constructor" alone is written in the
    alphabet of the user keys. *)
Lemma inherited_key (k : string) :
  allChars isKeyChar k = true -> inherited k = true -> k = "constructor".
Proof.
  intros Hk Hin. unfold inherited, inheritedNames in Hin. simpl in Hin.
  repeat match type of Hin with
         | (String.eqb k ?name || _) = true =>
             destruct (String.eqb_spec k name) as [->|_];
             [first [reflexivity|discriminate Hk]|]; simpl in Hin
         end.
  discriminate Hin.
Qed.

(** X17: once the price table of the region is there, [estimateCost] ends
    in PricingNotFound exactly when the table has no entry under the key of
    the model and that key is not "constructor", the one key that every
    table inherits. *)
Theorem pricing_not_found_iff (est : Estimator) (net : Transport) (fuel : nat)
  (input : CostInput) (w w1 : World) (pricing : CachedRegionPricing) :
  ensurePricing est net fuel (toLowerCase (region input)) w = (Return tt, w1) ->
  cache w1 !! toLowerCase (region input) = Some pricing ->
  (fst (estimateCost est net fuel input w)
   = Throw (PricingNotFound (notFoundMessage (model input)
                                             (toLowerCase (region input)))) <->
   meters pricing !! canonicalModelId (model input) = None /\
   canonicalModelId (model input) <> "constructor").
Proof.
  intros He Hc. rewrite estimateCost_unfold, He, Hc. unfold recordGet.
  destruct (canonicalModelId_key_shape (model input)) as (Hk & _).
  destruct (meters pricing !! canonicalModelId (model input)) as [m|] eqn:Hm.
  - simpl. split; [|now intros [? _]]. unfold billMeters.
    destruct (isDefined _); [discriminate|].
    destruct (negb _ && negb _); [discriminate|]. now destruct (imageUsd m).
  - destruct (inherited (canonicalModelId (model input))) eqn:Hi; simpl.
    + split; [discriminate|]. intros [_ Hne]. now destruct (Hne (inherited_key _ Hk Hi)).
    + split; [|reflexivity]. intros _. split; [reflexivity|].
      intros Heq. rewrite Heq in Hi. discriminate Hi.
Qed.

Lemma pricing_not_found_iff_witness :
  fst (estimateCost defaultEstimator (mockNet testItems 5) 1
         (textInput "eastus" "non-existent-model" 100 0) (initialWorld 0))
  = Throw (PricingNotFound (notFoundMessage "non-existent-model"
                                            (toLowerCase "eastus"))) <->
  normalize testItems !! canonicalModelId "non-existent-model" = None /\
  canonicalModelId "non-existent-model" <> "constructor".
Proof.
  apply (pricing_not_found_iff defaultEstimator (mockNet testItems 5) 1
           (textInput "eastus" "non-existent-model" 100 0) (initialWorld 0)
           (fetchedWorld testItems)
           {| fetchedAt := 5; meters := normalize testItems |});
    vm_compute; reflexivity.
Defined.

(** X18: every model of the price list can be asked for by its key: when
    the table of the region was normalised from a list of items and some
    item of the list has the key [k], the estimate for the model name [k]
    does not end in PricingNotFound. *)
Theorem priced_model_is_found (est : Estimator) (net : Transport) (fuel : nat)
  (input : CostInput) (w w1 : World) (allItems : list Item) (t : Z) (it : Item) :
  ensurePricing est net fuel (toLowerCase (region input)) w = (Return tt, w1) ->
  cache w1 !! toLowerCase (region input)
  = Some {| fetchedAt := t; meters := normalize allItems |} ->
  In it allItems ->
  itemKey it = Some (model input) ->
  forall message : string,
    fst (estimateCost est net fuel input w) <> Throw (PricingNotFound message).
Proof.
  intros He Hc Hin Hk message. rewrite estimateCost_unfold, He, Hc. simpl.
  rewrite (VendorKey_fixed _ (extractModelKey_VendorKey _ _ _ Hk)).
  assert (Hsome : is_Some (normalize allItems !! model input)).
  { unfold normalize. apply fold_addItem_keys. right. eauto. }
  destruct Hsome as [m Hm]. unfold recordGet. rewrite Hm. simpl.
  unfold billMeters. destruct (isDefined _); [discriminate|].
  destruct (negb _ && negb _); [discriminate|]. now destruct (imageUsd m).
Qed.

Lemma priced_model_is_found_witness :
  fst (estimateCost defaultEstimator (mockNet testItems 5) 1
         (textInput "eastus" "o3-mini" 2000 1000) (initialWorld 0))
  <> Throw (PricingNotFound "").
Proof.
  apply (priced_model_is_found defaultEstimator (mockNet testItems 5) 1
           (textInput "eastus" "o3-mini" 2000 1000) (initialWorld 0)
           (fetchedWorld testItems) testItems 5
           (item "O3-Mini Prompt Tokens" "O3-Mini" (decimal 15 4))).
  - vm_compute. reflexivity.
  - vm_compute. reflexivity.
  - simpl. tauto.
  - reflexivity.
Defined.

(** * The suffix of the generic GPT rule *)

Lemma isSep_cases (c : ascii) : isSep c = true -> c = "-"%char \/ c = " "%char.
Proof.
  destruct c as [[] [] [] [] [] [] [] []]; intros H; try discriminate H; auto.
Qed.

(** X19: on the vendor path a context or date suffix is taken only where
    it stands right after the version: when the text starts with "gpt-4"
    and a hyphen or space that does not introduce "turbo", as in
    "gpt-4-32k ..." or "gpt-4 1106 ...", and neither the o-family rule nor
    the "gpt-35" rule applies, the key is plain "gpt-4". *)
Theorem gpt_suffix_after_separator (meterName skuName rest : string) (c : ascii) :
  toLowerCase (meterName ++ " " ++ skuName) = "gpt-4" ++ String c rest ->
  isSep c = true ->
  startsWith rest "turbo" = false ->
  oFamilyMatch (toLowerCase (meterName ++ " " ++ skuName)) = None ->
  includes (toLowerCase (meterName ++ " " ++ skuName)) "gpt-35" = false ->
  includes (toLowerCase (meterName ++ " " ++ skuName)) "gpt35" = false ->
  extractModelKey meterName skuName = Some "gpt-4".
Proof.
  intros Hsrc Hsep Hturbo Ho H35 H35'.
  unfold extractModelKey. rewrite Ho, H35, H35'. cbn [orb].
  rewrite Hsrc. push_append. cbn [gptMatch].
  assert (Hat : gptAt (String "g" (String "p" (String "t" (String "-"
                  (String "4" (String c rest))))))
                = Some ("4", None)).
  { unfold startsWith in Hturbo.
    destruct (stripPrefix "turbo" rest) as [r5|] eqn:Et; [discriminate|].
    destruct (isSep_cases c Hsep) as [-> | ->];
      cbv in Et; cbv; rewrite Et; reflexivity. }
  now rewrite Hat.
Qed.

Lemma gpt_suffix_after_separator_witness :
  extractModelKey "GPT-4-32K Prompt Tokens" "Standard" = Some "gpt-4".
Proof.
  apply (gpt_suffix_after_separator "GPT-4-32K Prompt Tokens" "Standard"
           "32k prompt tokens standard" "-"); reflexivity.
Defined.

(** * A TTL of zero *)

Lemma fetchPages_sends (net : Transport) (fuel : nat) (next : string)
  (acc : list Item) (w : World) :
  length (requests w)
  < length (requests (snd (fetchPages net (S fuel) next acc w))).
Proof.
  simpl. unfold bind, axiosGet.
  destruct (respond net (length (requests w)) next) as [data|].
  - destruct (nextLink data) as [next'|].
    + match goal with |- context [fetchPages net fuel next' ?acc' ?w'] =>
        destruct (fetchPages_requests net fuel next' acc' w') as [Hle _];
        simpl in Hle; rewrite length_app in Hle; simpl in Hle
      end. lia.
    + simpl. rewrite length_app. simpl. lia.
  - simpl. rewrite length_app. simpl. lia.
Qed.

(** X20: a TTL of zero (or less) switches the cache off: as long as the
    clock has not gone back behind the time stamp of the region's entry,
    every call sends at least one request, whether or not an entry is
    there. *)
Theorem zero_ttl_always_fetches (est : Estimator) (net : Transport) (fuel : nat)
  (input : CostInput) (w : World) :
  (cacheTTL est <= 0)%Z ->
  (forall c, cache w !! toLowerCase (region input) = Some c ->
             (fetchedAt c <= now w)%Z) ->
  length (requests w)
  < length (requests (snd (estimateCost est net (S fuel) input w))).
Proof.
  intros Httl Hclock. rewrite estimateCost_world, ensurePricing_refresh.
  - pose proof (fetchPages_sends net fuel
                  (firstPage est (toLowerCase (region input))) [] w) as Hs.
    unfold fetchPricing, bind.
    destruct (fetchPages net (S fuel) _ [] w) as [[a|e|] w']; exact Hs.
  - destruct (cache w !! toLowerCase (region input)) as [c|] eqn:Hc; [|now left].
    right. exists c. split; [reflexivity|]. specialize (Hclock c eq_refl). lia.
Qed.

Lemma zero_ttl_always_fetches_witness :
  length (requests (warmWorld 0))
  < length (requests (snd (estimateCost
                             (newEstimator {| optCurrency := None;
                                              optCacheTTL := Some 0%Z |})
                             (mockNet testItems 5) 1
                             (textInput "eastus" "gpt-4" 500 200) (warmWorld 0)))).
Proof.
  apply (zero_ttl_always_fetches
           (newEstimator {| optCurrency := None; optCacheTTL := Some 0%Z |})
           (mockNet testItems 5) 0
           (textInput "eastus" "gpt-4" 500 200) (warmWorld 0)).
  - vm_compute. discriminate.
  - intros c Hc. vm_compute in Hc. injection Hc as <-. vm_compute. discriminate.
Defined.
